(** * doctor: schema annotations for Python callables

    A shallow embedding of [doctor/_schema.py], [doctor/_util.py] and
    [doctor/_annotation.py], and the properties of the annotation logic.

    Conventions of the embedding.
    - Python values are the type [value]; dictionaries with string keys are
      [gmap string value], so that two dictionaries with the same entries
      are equal, as with Python's [==].
    - A raised exception is [Raise e] in the [result] monad.
    - Python objects that carry attributes ([_wraps], [_doctor_annotation],
      [_decorated]) are identified by a [loc]; the attributes live in the
      [world], one finite map per attribute name, so that aliasing and
      attribute assignment are what they are in Python.
    - The effects of a wrapped callable are a state [St] which its body
      reads and writes; a body returns its result together with the new
      state.
    - [jsonschema] is an external collaborator: a [Schema] carries its
      resolver and its validator as functions, and the construction of
      the default ones in [Schema.__init__] is left to it.
    - A decoration that calls [get_wrapped] may not return, when the
      [_wraps] attributes form a cycle; it then has no outcome ([None]).
    - [Annotation.__iter__], [__eq__] and [__ne__] are not part of the
      embedding. *)

From stdpp Require Import gmap strings list fin_maps.

Set Warnings "-register-all".

Local Open Scope string_scope.
Local Open Scope list_scope.
Local Open Scope nat_scope.

(** ** Python values and exceptions *)

Definition loc := nat.

Inductive value :=
  | VNone                              (* None *)
  | VUnset                             (* doctor._util.UNSET *)
  | VBool (b : bool)
  | VInt (z : Z)
  | VStr (s : string)
  | VList (l : list value)
  | VDict (d : gmap string value)
  | VObject (id : loc).                (* any other object, by identity *)

Inductive exn :=
  | TypeError
  | KeyError (key : string)
  | RefResolutionError (ref : string)
  | ValidationError (message : string)
  | UserError (code : nat).            (* anything a user callable raises *)

Inductive result (A : Type) :=
  | Ok (a : A)
  | Raise (e : exn).
Arguments Ok {A} a.
Arguments Raise {A} e.

#[export] Instance result_ret : MRet result := λ A a, Ok a.
#[export] Instance result_bind : MBind result := λ A B f m,
  match m with
  | Ok a => f a
  | Raise e => Raise e
  end.

Definition is_Ok {A} (m : result A) : Prop := ∃ a, m = Ok a.

(** [x is None] *)
Definition is_none (v : value) : bool :=
  match v with VNone => true | _ => false end.

(** [x is UNSET] *)
Definition is_unset (v : value) : bool :=
  match v with VUnset => true | _ => false end.

(** [container[key]] for a string key: only a dict can be indexed by a
    string, and a missing key is a [KeyError]. *)
Definition py_getitem (container : value) (key : string) : result value :=
  match container with
  | VDict d =>
      match d !! key with
      | Some v => Ok v
      | None => Raise (KeyError key)
      end
  | _ => Raise TypeError
  end.

(** [v == name] for a string [name]. *)
Definition is_str (name : string) (v : value) : bool :=
  match v with
  | VStr s => bool_decide (s = name)
  | _ => false
  end.

Fixpoint is_prefix (p s : string) : bool :=
  match p, s with
  | EmptyString, _ => true
  | String a p', String b s' => bool_decide (a = b) && is_prefix p' s'
  | String _ _, EmptyString => false
  end.

Fixpoint is_substring (p s : string) : bool :=
  is_prefix p s ||
  match s with
  | EmptyString => false
  | String _ s' => is_substring p s'
  end.

(** [name in container] for a string [name]: key membership for a dict,
    element membership for a list, substring for a string, [TypeError] for
    a value that is not a container. *)
Definition py_in (name : string) (container : value) : result bool :=
  match container with
  | VDict d => Ok (bool_decide (is_Some (d !! name)))
  | VList l => Ok (existsb (is_str name) l)
  | VStr s => Ok (is_substring name s)
  | _ => Raise TypeError
  end.

(** ** doctor/_schema.py *)

(** A [Schema] wraps the raw schema with a resolver and a validator.
    [resolver ref] is [self.resolver.resolve(ref)] and [validator v s] is
    [self.validator.validate(v, s)] of jsonschema. *)
Record Schema := {
  raw_schema : value;
  resolver : string → result value;
  validator : value → value → result unit;
}.

(** [Schema.resolve] *)
Definition resolve (self : Schema) (ref : string) : result value :=
  resolver self ref.

(** ** doctor/_util.py: make_schema_dict *)

(** The [names] argument of [make_schema_dict], by the [isinstance]
    dispatch of the source; a list holds strings, as the docstring has
    it. *)
Inductive names_spec :=
  | NamesUnset                          (* UNSET *)
  | NamesNone                           (* None *)
  | NamesStr (name : string)
  | NamesDict (d : gmap string value)
  | NamesList (names : list string)
  | NamesOther (v : value).             (* any other type *)

(** ['#/definitions/{}'.format(name)] *)
Definition definition_ref (name : string) : string :=
  "#/definitions/" +:+ name.

(** [{'$ref': ref}] *)
Definition ref_dict (ref : string) : value :=
  VDict {[ "$ref" := VStr ref ]}.

(** The loop of the list branch: each name is resolved, then entered in
    the [properties] dictionary. *)
Fixpoint make_properties (schema : Schema) (names : list string)
    (properties : gmap string value) : result (gmap string value) :=
  match names with
  | [] => Ok properties
  | name :: names' =>
      let ref := definition_ref name in
      _ ← resolve schema ref;
      make_properties schema names' (<[name := ref_dict ref]> properties)
  end.

(** Truth value of [required_names] ([None] or a list). *)
Definition truthy_names (required_names : option (list string)) : bool :=
  match required_names with
  | Some (_ :: _) => true
  | _ => false
  end.

Definition names_value (names : option (list string)) : value :=
  match names with
  | Some l => VList (VStr <$> l)
  | None => VNone
  end.

Definition make_schema_dict (schema : Schema) (usage : string)
    (names : names_spec) (required_names : option (list string))
    : result value :=
  match names with
  | NamesUnset => Ok VUnset
  | NamesNone => Ok VNone
  | NamesStr name =>
      let ref := definition_ref name in
      _ ← resolve schema ref;
      Ok (ref_dict ref)
  | NamesDict d => Ok (VDict d)
  | NamesList names =>
      properties ← make_properties schema names ∅;
      let new_schema : gmap string value :=
        {[ "type" := VStr "object";
           "additionalProperties" := VBool true;
           "properties" := VDict properties ]} in
      if truthy_names required_names
      then Ok (VDict (<["required" := names_value required_names]> new_schema))
      else Ok (VDict new_schema)
  | NamesOther _ => Raise TypeError
  end.

(** ** Callables, reflection and annotations *)

(** What [inspect.getargspec] returns. *)
Record ArgSpec := {
  spec_args : list string;
  spec_varargs : option string;
  spec_keywords : option string;
  spec_defaults : option (list value);
}.

Section program.
Context {St : Type}.

(** The body of a callable: positional arguments, keyword arguments and
    the state of the host program in; result (or exception) and new state
    out. *)
Definition behaviour : Type :=
  list value → gmap string value → St → result value * St.

(** A plain Python function: its identity, its reflected signature and its
    body. *)
Record function := {
  fn_id : loc;
  fn_argspec : ArgSpec;
  fn_body : behaviour;
}.

(** A Python object as the annotation code meets it: a plain function, an
    instance whose class defines [__call__] (with the function behind the
    bound method), or an object that cannot be called. *)
Inductive pyobj :=
  | Func (f : function)
  | Instance (id : loc) (call : function)
  | Plain (id : loc).

Definition obj_id (o : pyobj) : loc :=
  match o with
  | Func f => fn_id f
  | Instance id _ => id
  | Plain id => id
  end.

(** [callable(o)] *)
Definition callable (o : pyobj) : bool :=
  match o with
  | Plain _ => false
  | _ => true
  end.

(** [inspect.isfunction(o)] *)
Definition isfunction (o : pyobj) : bool :=
  match o with
  | Func _ => true
  | _ => false
  end.

(** Calling [o] with positional and keyword arguments: a bound
    [__call__] receives the instance first. *)
Definition invoke (o : pyobj) : behaviour :=
  λ args kwargs s,
    match o with
    | Func f => fn_body f args kwargs s
    | Instance id call => fn_body call (VObject id :: args) kwargs s
    | Plain _ => (Raise TypeError, s)
    end.

Record Annotation := {
  annotated_func : pyobj;
  func : function;
  is_method : bool;
  arg_names : list string;
  args_name : option string;
  kwargs_name : option string;
  default_values : option (list value);
  schema : Schema;
  args_schema : value;
  result_schema : value;
}.

(** [Annotation.collect_properties]: the loop over
    [enumerate(self.arg_names)], from index [i] on, with the dictionary
    built so far. [self.args_schema['properties']] is evaluated in the
    loop body, as in the source. *)
Fixpoint collect_loop (self_args_schema : value) (call_args : list value)
    (call_kwargs : gmap string value) (i : nat) (names : list string)
    (properties : gmap string value) : result (gmap string value) :=
  match names with
  | [] => Ok properties
  | name :: names' =>
      declared ← py_getitem self_args_schema "properties";
      present ← py_in name declared;
      if negb present
      then collect_loop self_args_schema call_args call_kwargs (S i) names'
             properties
      else
        match call_args !! i with
        | Some v =>
            collect_loop self_args_schema call_args call_kwargs (S i) names'
              (<[name := v]> properties)
        | None =>
            match call_kwargs !! name with
            | Some v =>
                collect_loop self_args_schema call_args call_kwargs (S i)
                  names' (<[name := v]> properties)
            | None =>
                collect_loop self_args_schema call_args call_kwargs (S i)
                  names' properties
            end
        end
  end.

Definition collect_properties (self : Annotation) (call_args : list value)
    (call_kwargs : gmap string value) : result (gmap string value) :=
  collect_loop (args_schema self) call_args call_kwargs 0 (arg_names self) ∅.

(** [l[:-k]] for [k > 0]. *)
Definition drop_last {A} (k : nat) (l : list A) : list A :=
  take (length l - k) l.

(** Truth value of [default_values] ([None] or a tuple). *)
Definition truthy_defaults (default_values : option (list value)) : bool :=
  match default_values with
  | Some (_ :: _) => true
  | _ => false
  end.

Definition defaults_length (default_values : option (list value)) : nat :=
  match default_values with
  | Some l => length l
  | None => 0
  end.

(** [Annotation.create_args_schema] *)
Definition create_args_schema (schema : Schema) (arg_names : list string)
    (default_values : option (list value)) (is_method : bool)
    : result value :=
  let arg_names := if is_method then drop 1 arg_names else arg_names in
  match arg_names with
  | [] => Ok VNone
  | _ :: _ =>
      let required_arg_names :=
        if truthy_defaults default_values
        then drop_last (defaults_length default_values) arg_names
        else arg_names in
      make_schema_dict schema "args" (NamesList arg_names)
        (Some required_arg_names)
  end.

(** The function that [Annotation.create] reflects:
    [getattr(func, '__func__', func)], after [func = func.__call__] for a
    callable that is not a plain function. *)
Definition reflected_function (o : pyobj) : option function :=
  match o with
  | Func f => Some f
  | Instance _ call => Some call
  | Plain _ => None
  end.

(** [Annotation.create]. The schema argument is a [Schema] by its type,
    which leaves the [isinstance(schema, Schema)] guard without a failing
    case. *)
Definition create (_callable : pyobj) (schema : Schema) (args_schema : value)
    (result_schema : value) (is_method : bool) : result Annotation :=
  if negb (callable _callable) then Raise TypeError else
  let is_method := if isfunction _callable then is_method else true in
  match reflected_function _callable with
  | None => Raise TypeError
  | Some func =>
      let '{| spec_args := arg_names; spec_varargs := args_name;
              spec_keywords := kwargs_name;
              spec_defaults := default_values |} := fn_argspec func in
      args_schema ←
        (if is_unset args_schema
         then create_args_schema schema arg_names default_values is_method
         else Ok args_schema);
      Ok {| annotated_func := _callable; func := func;
            is_method := is_method; arg_names := arg_names;
            args_name := args_name; kwargs_name := kwargs_name;
            default_values := default_values; schema := schema;
            args_schema := args_schema; result_schema := result_schema |}
  end.

(** ** Attributes of objects and the decorators *)

(** The attributes that the decorators set on callables, one store per
    attribute name, keyed by the identity of the object; [next_id] is the
    identity of the next object to be created. *)
Record world := {
  next_id : loc;
  attr_wraps : gmap loc pyobj;
  attr_doctor_annotation : gmap loc Annotation;
  attr_decorated : gmap loc pyobj;
}.

Definition set_wraps (o : pyobj) (v : pyobj) (w : world) : world :=
  {| next_id := next_id w;
     attr_wraps := <[obj_id o := v]> (attr_wraps w);
     attr_doctor_annotation := attr_doctor_annotation w;
     attr_decorated := attr_decorated w |}.

Definition set_doctor_annotation (o : pyobj) (a : Annotation) (w : world)
    : world :=
  {| next_id := next_id w;
     attr_wraps := attr_wraps w;
     attr_doctor_annotation := <[obj_id o := a]> (attr_doctor_annotation w);
     attr_decorated := attr_decorated w |}.

Definition set_decorated (o : pyobj) (v : pyobj) (w : world) : world :=
  {| next_id := next_id w;
     attr_wraps := attr_wraps w;
     attr_doctor_annotation := attr_doctor_annotation w;
     attr_decorated := <[obj_id o := v]> (attr_decorated w) |}.

(** [dst.__dict__.update(src.__dict__)] on one attribute store. *)
Definition copy_attr {A} (src dst : loc) (m : gmap loc A) : gmap loc A :=
  match m !! src with
  | Some x => <[dst := x]> m
  | None => m
  end.

(** A new function object defined under [functools.wraps(wrapped)]: it
    takes the next identity and the attributes of [wrapped]. Its reflected
    signature is the one of a function of variadic arguments [args] and
    [kwargs] only. *)
Definition new_wrapper (wrapped : pyobj) (body : behaviour) (w : world)
    : pyobj * world :=
  let id := next_id w in
  (Func {| fn_id := id;
           fn_argspec := {| spec_args := []; spec_varargs := Some "args";
                            spec_keywords := Some "kwargs";
                            spec_defaults := None |};
           fn_body := body |},
   {| next_id := S id;
      attr_wraps := copy_attr (obj_id wrapped) id (attr_wraps w);
      attr_doctor_annotation :=
        copy_attr (obj_id wrapped) id (attr_doctor_annotation w);
      attr_decorated := copy_attr (obj_id wrapped) id (attr_decorated w) |}).

(** [get_wrapped]: the [while hasattr(func, '_wraps')] loop, for at most
    [fuel] iterations; [None] when the loop is still running then. *)
Fixpoint get_wrapped_fuel (fuel : nat) (wraps : gmap loc pyobj)
    (func : pyobj) : option pyobj :=
  match wraps !! obj_id func with
  | None => Some func
  | Some func' =>
      match fuel with
      | 0 => None
      | S fuel' => get_wrapped_fuel fuel' wraps func'
      end
  end.

(** [get_wrapped]. A walk that finds the root visits each object that has
    a [_wraps] attribute at most once, so [size wraps] iterations suffice
    whenever the loop ends (see [get_wrapped_fuel_size]); [None] stands for
    a loop that never ends. *)
Definition get_wrapped (wraps : gmap loc pyobj) (func : pyobj)
    : option pyobj :=
  get_wrapped_fuel (size wraps) wraps func.

(** A decorator in the making: it may not return ([None]); otherwise it
    returns an object or raises, and leaves a world. *)
Definition decoration : Type := world → option (result pyobj * world).

(** [with_wraps(decorator)], the wrapper [_decorator_wrapper] for
    [arguments=False]; it receives its positional arguments as a list. *)
Definition with_wraps (decorator : pyobj → decoration)
    (args : list pyobj) : decoration :=
  λ w,
    match args with
    | [] => Some (Raise TypeError, w)
    | func :: _ =>
        if negb (callable func) then Some (Raise TypeError, w) else
        match decorator func w with
        | None => None
        | Some (Raise e, w') => Some (Raise e, w')
        | Some (Ok wrapped_func, w') =>
            Some (Ok wrapped_func, set_wraps wrapped_func func w')
        end
    end.

(** [with_wraps(decorator, arguments=True)], which is also what
    [with_wraps(arguments=True)(decorator)] returns: the wrapper
    [_decorator_wrapper] for [arguments=True], for a decorator factory that
    takes arguments of type [A]. *)
Definition with_wraps_arguments {A} (decorator : A → result (pyobj → decoration))
    (args : A) : result (list pyobj → decoration) :=
  generated_decorator ← decorator args;
  Ok (with_wraps generated_decorator).

(** The [wrapper] closure of [annotate]. *)
Definition wrapper (schema : Schema) (annotation : Annotation) (func : pyobj)
    : behaviour :=
  λ args kwargs s,
    let checked_args :=
      if negb (is_none (args_schema annotation))
      then
        properties ← collect_properties annotation args kwargs;
        validator schema (VDict properties) (args_schema annotation)
      else Ok () in
    match checked_args with
    | Raise e => (Raise e, s)
    | Ok _ =>
        match invoke func args kwargs s with
        | (Raise e, s') => (Raise e, s')
        | (Ok result, s') =>
            let checked_result :=
              if negb (is_none (result_schema annotation))
              then validator schema result (result_schema annotation)
              else Ok () in
            match checked_result with
            | Raise e => (Raise e, s')
            | Ok _ => (Ok result, s')
            end
        end
    end.

(** The [decorator] closure of [annotate]. *)
Definition decorator (schema : Schema) (args_schema result_schema : value)
    (is_method : bool) (func : pyobj) : decoration :=
  λ w,
    match get_wrapped (attr_wraps w) func with
    | None => None
    | Some root =>
        match create root schema args_schema result_schema is_method with
        | Raise e => Some (Raise e, w)
        | Ok annotation =>
            let w := set_doctor_annotation func annotation w in
            let '(wrapper, w) :=
              new_wrapper func (wrapper schema annotation func) w in
            Some (Ok wrapper, set_decorated wrapper func w)
        end
    end.

(** The arguments of a call of [annotate]. *)
Record annotate_args := {
  a_schema : Schema;
  a_args : names_spec;
  a_required_args : option (list string);
  a_result : names_spec;
  a_is_method : bool;
}.

(** The body of [annotate], before [with_wraps(arguments=True)] is
    applied to it. *)
Definition annotate_body (a : annotate_args)
    : result (pyobj → decoration) :=
  args_schema ←
    make_schema_dict (a_schema a) "args" (a_args a) (a_required_args a);
  result_schema ←
    make_schema_dict (a_schema a) "result" (a_result a) None;
  Ok (decorator (a_schema a) args_schema result_schema (a_is_method a)).

(** [annotate] *)
Definition annotate (schema : Schema) (args : names_spec)
    (required_args : option (list string)) (result_names : names_spec)
    (is_method : bool) : result (list pyobj → decoration) :=
  with_wraps_arguments annotate_body
    {| a_schema := schema; a_args := args; a_required_args := required_args;
       a_result := result_names; a_is_method := is_method |}.

End program.

Arguments behaviour : clear implicits.
Arguments function : clear implicits.
Arguments pyobj : clear implicits.
Arguments Annotation : clear implicits.
Arguments world : clear implicits.
Arguments decoration : clear implicits.

(** ** A sample schema, resolver and validator

    The tests of the repository run against jsonschema. For concrete
    instances of the theorems below, [Sample] provides a small stand-in:
    a resolver of [#/definitions/<name>] references into the raw schema
    and a validator for [$ref], [type], [maximum], [required] and
    [properties]. *)
Module Sample.

Fixpoint strip_prefix (p s : string) : option string :=
  match p, s with
  | EmptyString, _ => Some s
  | String a p', String b s' =>
      if bool_decide (a = b) then strip_prefix p' s' else None
  | String _ _, EmptyString => None
  end.

Definition definitions_resolver (raw : value) (ref : string) : result value :=
  match strip_prefix "#/definitions/" ref, raw with
  | Some name, VDict d =>
      match d !! "definitions" with
      | Some (VDict definitions) =>
          match definitions !! name with
          | Some v => Ok v
          | None => Raise (RefResolutionError ref)
          end
      | _ => Raise (RefResolutionError ref)
      end
  | _, _ => Raise (RefResolutionError ref)
  end.

Definition has_type (t : string) (instance : value) : bool :=
  match instance with
  | VNone => bool_decide (t = "null")
  | VBool _ => bool_decide (t = "boolean")
  | VInt _ => bool_decide (t = "integer") || bool_decide (t = "number")
  | VStr _ => bool_decide (t = "string")
  | VList _ => bool_decide (t = "array")
  | VDict _ => bool_decide (t = "object")
  | _ => false
  end.

Definition check_type (t : option value) (instance : value) : result unit :=
  match t with
  | Some (VStr t) =>
      if has_type t instance then Ok ()
      else Raise (ValidationError ("is not of type " +:+ t))
  | _ => Ok ()
  end.

Definition check_maximum (m : option value) (instance : value)
    : result unit :=
  match m, instance with
  | Some (VInt m), VInt z =>
      if bool_decide (z ≤ m)%Z then Ok ()
      else Raise (ValidationError "is greater than the maximum")
  | _, _ => Ok ()
  end.

Definition check_required (r : option value) (instance : value)
    : result unit :=
  match r, instance with
  | Some (VList names), VDict d =>
      if forallb (λ name, match name with
                          | VStr name => bool_decide (is_Some (d !! name))
                          | _ => true
                          end) names
      then Ok ()
      else Raise (ValidationError "is a required property")
  | _, _ => Ok ()
  end.

Fixpoint simple_validate (depth : nat) (resolve_ref : string → result value)
    (instance schema : value) : result unit :=
  match depth with
  | 0 => Raise (ValidationError "schema too deep")
  | S depth =>
      match schema with
      | VDict d =>
          match d !! "$ref" with
          | Some (VStr ref) =>
              target ← resolve_ref ref;
              simple_validate depth resolve_ref instance target
          | _ =>
              _ ← check_type (d !! "type") instance;
              _ ← check_maximum (d !! "maximum") instance;
              _ ← check_required (d !! "required") instance;
              match d !! "properties", instance with
              | Some (VDict properties), VDict fields =>
                  map_fold (λ name subschema checked,
                              _ ← checked;
                              match fields !! name with
                              | Some v =>
                                  simple_validate depth resolve_ref v subschema
                              | None => Ok ()
                              end) (Ok ()) properties
              | _, _ => Ok ()
              end
          end
      | _ => Ok ()
      end
  end.

Definition schema_of (raw : value) : Schema :=
  {| raw_schema := raw;
     resolver := definitions_resolver raw;
     validator := simple_validate 8 (definitions_resolver raw) |}.

(** The schema fixture of [test_annotation.py]. *)
Definition test_raw : value :=
  VDict {[ "definitions" := VDict
    {[ "a" := VDict {[ "type" := VStr "string" ]};
       "b" := VDict {[ "type" := VStr "boolean" ]};
       "c" := VDict {[ "type" := VStr "integer" ]};
       "d" := VDict {[ "type" := VStr "integer" ]};
       "result" := VDict {[ "type" := VStr "integer";
                            "maximum" := VInt 2 ]} ]} ]}.

Definition test_schema : Schema := schema_of test_raw.

(** The schema fixture of [test_make_schema_dict]. *)
Definition user_raw : value :=
  VDict {[ "definitions" := VDict
    {[ "id" := VDict {[ "type" := VStr "integer" ]};
       "email" := VDict {[ "type" := VStr "string" ]};
       "user" := VDict
         {[ "type" := VStr "object";
            "properties" := VDict
              {[ "id" := ref_dict "#/definitions/id";
                 "email" := ref_dict "#/definitions/email" ]} ]} ]} ]}.

Definition user_schema : Schema := schema_of user_raw.

(** The state of the host program in the samples: the log of the calls
    that reached a body. *)
Definition log : Type := list (list value).

(** Binding of call arguments to the parameters [names], the last of
    which have the defaults [defaults], for a function without variadic
    parameters. *)
Fixpoint bind_loop (required : nat) (defaults : list value)
    (args : list value) (kwargs : gmap string value) (i : nat)
    (names : list string) : result (list value) :=
  match names with
  | [] => Ok []
  | name :: names' =>
      v ← match args !! i, kwargs !! name with
          | Some _, Some _ => Raise TypeError
          | Some v, None => Ok v
          | None, Some v => Ok v
          | None, None =>
              if bool_decide (required ≤ i)%nat
              then match defaults !! (i - required) with
                   | Some v => Ok v
                   | None => Raise TypeError
                   end
              else Raise TypeError
          end;
      vs ← bind_loop required defaults args kwargs (S i) names';
      Ok (v :: vs)
  end.

Definition bind (spec : ArgSpec) (args : list value)
    (kwargs : gmap string value) : result (list value) :=
  let names := spec_args spec in
  let defaults := default (@nil value) (spec_defaults spec) in
  if bool_decide (length names < length args)%nat then Raise TypeError
  else if bool_decide (dom kwargs ⊆ list_to_set names)
  then bind_loop (length names - length defaults) defaults args kwargs 0 names
  else Raise TypeError.

(** A function that logs its bound arguments and returns the one at
    index [ret] (or [None]). *)
Definition logging_function (id : loc) (spec : ArgSpec) (ret : option nat)
    : function log :=
  {| fn_id := id;
     fn_argspec := spec;
     fn_body := λ args kwargs s,
       match bind spec args kwargs with
       | Raise e => (Raise e, s)
       | Ok vs =>
           (Ok (default VNone (r ← ret; vs !! r)), (s ++ [vs])%list)
       end |}.

Definition spec_of (names : list string) (defaults : option (list value))
    : ArgSpec :=
  {| spec_args := names; spec_varargs := None; spec_keywords := None;
     spec_defaults := defaults |}.

(** [def func(a, b, c=0, d=0): ...; return d] of
    [test_annotate_validation]. *)
Definition fn_abcd : function log :=
  logging_function 1 (spec_of ["a"; "b"; "c"; "d"] (Some [VInt 0; VInt 0]))
    (Some 3).

Definition func_abcd : pyobj log := Func fn_abcd.

(** The annotation of [func_abcd] under
    [annotate(schema, result='result')]. *)
Definition annotation_abcd : Annotation log :=
  {| annotated_func := func_abcd;
     func := fn_abcd;
     is_method := false;
     arg_names := ["a"; "b"; "c"; "d"];
     args_name := None;
     kwargs_name := None;
     default_values := Some [VInt 0; VInt 0];
     schema := test_schema;
     args_schema := VDict
       {[ "type" := VStr "object";
          "additionalProperties" := VBool true;
          "properties" := VDict
            {[ "a" := ref_dict "#/definitions/a";
               "b" := ref_dict "#/definitions/b";
               "c" := ref_dict "#/definitions/c";
               "d" := ref_dict "#/definitions/d" ]};
          "required" := VList [VStr "a"; VStr "b"] ]};
     result_schema := ref_dict "#/definitions/result" |}.

(** [def func(): pass] *)
Definition func_noargs : pyobj log :=
  Func (logging_function 2 (spec_of [] None) None).

(** [def method(self, a, b, c=3, d=4): pass] *)
Definition method_abcd : pyobj log :=
  Func (logging_function 3
          (spec_of ["self"; "a"; "b"; "c"; "d"] (Some [VInt 3; VInt 4]))
          None).

(** An instance of a class with [def __call__(self): pass]. *)
Definition instance_noargs : pyobj log :=
  Instance 4 (logging_function 5 (spec_of ["self"] None) None).

(** A world in which no object has an attribute yet. *)
Definition world0 : world log :=
  {| next_id := 100; attr_wraps := ∅; attr_doctor_annotation := ∅;
     attr_decorated := ∅ |}.

(** A plain decorator in the style of [test_get_wrapped]: the wrapper
    logs [tag] and calls the function. *)
Definition tagging_decorator (tag : value) (func : pyobj log)
    : decoration log :=
  λ w,
    let '(wrapper, w) :=
      new_wrapper func (λ args kwargs s, invoke func args kwargs (s ++ [[tag]])%list)
        w in
    Some (Ok wrapper, w).

(** [baz] of [test_get_wrapped], and the three decorators stacked on
    it. *)
Definition baz : pyobj log :=
  Func {| fn_id := 6;
          fn_argspec := spec_of ["results"] None;
          fn_body := λ args kwargs s, (Ok VNone, s ++ [[VStr "baz"]]) |}.

Definition stacked : option (pyobj log * world log) :=
  match with_wraps (tagging_decorator (VStr "bar")) [baz] world0 with
  | Some (Ok f1, w1) =>
      match with_wraps (tagging_decorator (VStr "foo")) [f1] w1 with
      | Some (Ok f2, w2) =>
          match with_wraps (tagging_decorator (VStr "bar")) [f2] w2 with
          | Some (Ok f3, w3) => Some (f3, w3)
          | _ => None
          end
      | _ => None
      end
  | _ => None
  end.

End Sample.


(** More sample callables, for the instances of the further properties. *)
Module Fixtures.

(** [def func(foo, bar='baz'): pass] of [test_annotate_args_list]. *)
Definition fn_foo_bar : function Sample.log :=
  Sample.logging_function 7
    (Sample.spec_of ["foo"; "bar"] (Some [VStr "baz"])) None.

(** Its annotation under [annotate(schema, args=['a', 'b'])]. *)
Definition annotation_foo_bar : Annotation Sample.log :=
  {| annotated_func := Func fn_foo_bar;
     func := fn_foo_bar;
     is_method := false;
     arg_names := ["foo"; "bar"];
     args_name := None;
     kwargs_name := None;
     default_values := Some [VStr "baz"];
     schema := Sample.test_schema;
     args_schema := VDict
       {[ "type" := VStr "object";
          "additionalProperties" := VBool true;
          "properties" := VDict
            {[ "a" := ref_dict "#/definitions/a";
               "b" := ref_dict "#/definitions/b" ]} ]};
     result_schema := VNone |}.

(** [def func(a, zzz): pass], with a parameter that the schema does not
    define. *)
Definition fn_unknown : function Sample.log :=
  Sample.logging_function 8 (Sample.spec_of ["a"; "zzz"] None) None.

(** A decorator that returns the function it is given. *)
Definition same_function (f : pyobj Sample.log) : decoration Sample.log :=
  λ w, Some (Ok f, w).

End Fixtures.

(** * Vocabulary of the properties *)

(** [name] is the name of a definition that the schema resolves. *)
Definition resolves (schema : Schema) (name : string) : Prop :=
  is_Ok (resolve schema (definition_ref name)).

(** [names] up to the first name that does not resolve, which fails with
    [e]. *)
Definition first_unresolved (schema : Schema) (names : list string)
    (e : exn) : Prop :=
  ∃ pre bad post,
    names = pre ++ bad :: post ∧
    Forall (resolves schema) pre ∧
    resolve schema (definition_ref bad) = Raise e.

(** The names listed under ["required"] in an object schema; none when
    the key is absent. *)
Definition required_list (d : gmap string value) : list value :=
  match d !! "required" with
  | Some (VList l) => l
  | _ => []
  end.

(** [name] is found in [args_schema['properties']]. *)
Definition declared (args_schema : value) (name : string) : Prop :=
  ∃ container,
    py_getitem args_schema "properties" = Ok container ∧
    py_in name container = Ok true.

(** The explicit spec [names] names a definition that does not resolve;
    [e] is the error of the first such name. *)
Definition unresolved_spec (schema : Schema) (names : names_spec) (e : exn)
    : Prop :=
  match names with
  | NamesStr name => resolve schema (definition_ref name) = Raise e
  | NamesList names => first_unresolved schema names e
  | _ => False
  end.

(** A spec that yields an args schema without a ["properties"] key. *)
Definition lacks_properties (names : names_spec) : Prop :=
  match names with
  | NamesStr _ => True
  | NamesDict d => d !! "properties" = None
  | _ => False
  end.

Section vocabulary.
Context {St : Type}.
Implicit Types (wraps : gmap loc (pyobj St)) (a : Annotation St).
Implicit Types (call_args : list value) (call_kwargs : gmap string value).

(** [chain wraps func path root]: following the [_wraps] attributes from
    [func] passes the objects [path], each with a back-reference to the
    next, and ends at [root], which has none. *)
Inductive chain wraps : pyobj St → list (pyobj St) → pyobj St → Prop :=
  | chain_root func :
      wraps !! obj_id func = None →
      chain wraps func [] func
  | chain_step func func' path root :
      wraps !! obj_id func = Some func' →
      chain wraps func' path root →
      chain wraps func (func :: path) root.

(** The effective [is_method] of [Annotation.create]. *)
Definition treated_as_method (root : pyobj St) (is_method : bool) : bool :=
  if isfunction root then is_method else true.

(** The arguments of a call pass the argument check of the wrapper: the
    check is disabled, or the extracted properties satisfy the args
    schema. *)
Definition args_valid (schema0 : Schema) a call_args call_kwargs : Prop :=
  is_none (args_schema a) = true ∨
  ∃ properties,
    collect_properties a call_args call_kwargs = Ok properties ∧
    validator schema0 (VDict properties) (args_schema a) = Ok ().

(** The extracted properties violate the args schema, with error [e]. *)
Definition args_invalid (schema0 : Schema) a call_args call_kwargs (e : exn)
    : Prop :=
  is_none (args_schema a) = false ∧
  ∃ properties,
    collect_properties a call_args call_kwargs = Ok properties ∧
    validator schema0 (VDict properties) (args_schema a) = Raise e.

(** The result passes the result check of the wrapper. *)
Definition result_valid (schema0 : Schema) a (r : value) : Prop :=
  is_none (result_schema a) = true ∨
  validator schema0 r (result_schema a) = Ok ().

End vocabulary.

(** * Properties *)

(** ** make_schema_dict *)

Lemma make_properties_frame schema names acc props name :
  make_properties schema names acc = Ok props →
  name ∉ names →
  props !! name = acc !! name.
Proof.
  revert acc. induction names as [|n names IH]; intros acc; simpl.
  - by intros [= <-].
  - destruct (resolve schema (definition_ref n)); simpl; [|done].
    intros Hok [Hne Hnotin]%not_elem_of_cons.
    rewrite (IH _ Hok Hnotin). by apply lookup_insert_ne.
Qed.

Lemma make_properties_lookup schema names acc props name :
  make_properties schema names acc = Ok props →
  name ∈ names →
  props !! name = Some (ref_dict (definition_ref name)).
Proof.
  revert acc. induction names as [|n names IH]; intros acc; simpl.
  - by intros _ ?%elem_of_nil.
  - destruct (resolve schema (definition_ref n)); simpl; [|done].
    intros Hok Hin. destruct (decide (name ∈ names)) as [Hin'|Hnotin].
    + by apply (IH _ Hok).
    + apply elem_of_cons in Hin as [->|?]; [|done].
      rewrite (make_properties_frame _ _ _ _ _ Hok Hnotin).
      apply lookup_insert_eq.
Qed.

Lemma make_properties_resolves schema names acc props :
  make_properties schema names acc = Ok props →
  Forall (resolves schema) names.
Proof.
  revert acc. induction names as [|n names IH]; intros acc; simpl.
  - by constructor.
  - destruct (resolve schema (definition_ref n)) as [v|] eqn:Hres; simpl;
      [|done].
    intros Hok. constructor; [by exists v | by eapply IH].
Qed.

Lemma make_properties_Raise schema names acc e :
  make_properties schema names acc = Raise e →
  first_unresolved schema names e.
Proof.
  revert acc. induction names as [|n names IH]; intros acc; simpl; [done|].
  destruct (resolve schema (definition_ref n)) as [v|e'] eqn:Hres; simpl.
  - intros (pre & bad & post & -> & Hpre & Hbad)%IH.
    exists (n :: pre), bad, post. split_and!; [done| |done].
    constructor; [by exists v | done].
  - intros [= ->]. by exists [], n, names.
Qed.

Lemma first_unresolved_not_all schema names e :
  first_unresolved schema names e → ¬ Forall (resolves schema) names.
Proof.
  intros (pre & bad & post & -> & _ & Hbad) Hall.
  apply Forall_app in Hall as [_ Hall].
  apply Forall_cons in Hall as [[v Hv] _]. congruence.
Qed.

(** C5. For a list of names, [make_schema_dict] either returns the object
    schema: type ["object"], [additionalProperties] true, one [$ref] entry
    under ["properties"] for each listed name and for nothing else, and a
    ["required"] key holding exactly the given list, present if and only
    if that list is non-empty; or it fails with the error of the first
    listed name that does not resolve. It returns the schema exactly when
    every listed name resolves. *)
Theorem make_schema_dict_list schema usage names required_names :
  match make_schema_dict schema usage (NamesList names) required_names with
  | Ok new_schema =>
      Forall (resolves schema) names ∧
      ∃ d properties,
        new_schema = VDict d ∧
        d !! "type" = Some (VStr "object") ∧
        d !! "additionalProperties" = Some (VBool true) ∧
        d !! "properties" = Some (VDict properties) ∧
        (∀ name, name ∈ names →
           properties !! name =
             Some (VDict {[ "$ref" := VStr ("#/definitions/" +:+ name) ]})) ∧
        (∀ name, name ∉ names → properties !! name = None) ∧
        d !! "required" =
          match required_names with
          | Some (r :: rs) => Some (VList (VStr <$> r :: rs))
          | _ => None
          end ∧
        (∀ key, is_Some (d !! key) →
           key ∈ ["type"; "additionalProperties"; "properties"; "required"])
  | Raise e =>
      first_unresolved schema names e
  end.
Proof.
  unfold make_schema_dict.
  destruct (make_properties schema names ∅) as [properties|e] eqn:Hprops;
    simpl; [|by eapply make_properties_Raise].
  assert (∀ name, name ∈ names →
            properties !! name =
              Some (VDict {[ "$ref" := VStr ("#/definitions/" +:+ name) ]}))
    as Hin by (intros; by eapply make_properties_lookup).
  assert (∀ name, name ∉ names → properties !! name = None) as Hnotin.
  { intros name ?.
    by rewrite (make_properties_frame _ _ _ _ _ Hprops), lookup_empty. }
  apply make_properties_resolves in Hprops.
  destruct required_names as [[|r rs]|]; simpl;
    (split; [done|]); eexists _, properties;
    (split_and!; [done|done|done|done|done|done|done|]);
    intros key [v Hkey];
    repeat (apply lookup_insert_Some in Hkey as [[<- _]|[_ Hkey]];
            [set_solver|]);
    apply lookup_singleton_Some in Hkey as [<- _]; set_solver.
Qed.

(** C6. For a string, [make_schema_dict] fails with the error of the
    resolver when [#/definitions/<name>] does not resolve, and returns
    exactly the [$ref] dictionary when it resolves. *)
Theorem make_schema_dict_str schema usage name required_names :
  match resolve schema ("#/definitions/" +:+ name) with
  | Raise e =>
      make_schema_dict schema usage (NamesStr name) required_names = Raise e
  | Ok _ =>
      make_schema_dict schema usage (NamesStr name) required_names =
        Ok (VDict {[ "$ref" := VStr ("#/definitions/" +:+ name) ]})
  end.
Proof.
  unfold make_schema_dict, definition_ref.
  by destruct (resolve schema ("#/definitions/" +:+ name)).
Qed.

(** ** Annotation.create_args_schema *)

Lemma match_nonempty {A B} (l : list A) (x y : B) :
  l ≠ [] → match l with [] => x | _ :: _ => y end = y.
Proof. by destruct l. Qed.

Lemma NoDup_drop_1 {A} (l : list A) : NoDup l → NoDup (drop 1 l).
Proof. destruct l; simpl; [done|]. by intros [_ ?]%NoDup_cons. Qed.

(** C1. Without an explicit args spec, the derived schema lists as
    required exactly the first [n - k] of the [n] names that remain after
    the leading name of a method is dropped, [k] being the number of
    default values: the name at index [i] is required if and only if
    [i < n - k], and the ["required"] key is absent when no name is
    required. The properties of the schema are the remaining names, so
    the leading name of a method is neither a property nor required. *)
Theorem create_args_schema_required (schema : Schema)
    (arg_names : list string) (default_values : option (list value))
    (is_method : bool) :
  NoDup arg_names →
  let names := if is_method then drop 1 arg_names else arg_names in
  let n := length names in
  let k := defaults_length default_values in
  match create_args_schema schema arg_names default_values is_method with
  | Ok args_schema =>
      (names = [] ∧ args_schema = VNone) ∨
      (names ≠ [] ∧ Forall (resolves schema) names ∧
       ∃ d properties,
         args_schema = VDict d ∧
         d !! "properties" = Some (VDict properties) ∧
         (∀ name, is_Some (properties !! name) ↔ name ∈ names) ∧
         required_list d = VStr <$> take (n - k) names ∧
         (∀ i name, names !! i = Some name →
            VStr name ∈ required_list d ↔ i < n - k) ∧
         (is_Some (d !! "required") ↔ k < n) ∧
         (∀ self, is_method = true → head arg_names = Some self →
            properties !! self = None ∧ VStr self ∉ required_list d))
  | Raise e => names ≠ [] ∧ first_unresolved schema names e
  end.
Proof.
  intros Hnodup names n k.
  assert (NoDup names) as Hnames.
  { subst names. destruct is_method; [by apply NoDup_drop_1 | done]. }
  unfold create_args_schema. fold names.
  assert (names = if is_method then drop 1 arg_names else arg_names)
    as Hdef by done.
  assert (n = length names) as Hn by done.
  clearbody n. clearbody names.
  destruct (decide (names = [])) as [->|Hne]; [simpl; by left|].
  rewrite match_nonempty by done.
  set (required :=
         if truthy_defaults default_values
         then drop_last (defaults_length default_values) names
         else names).
  assert (required = take (n - k) names) as Hrequired.
  { subst required n k. unfold drop_last.
    destruct default_values as [[|v vs]|]; simpl;
      [| done | ]; by rewrite Nat.sub_0_r, firstn_all. }
  unfold make_schema_dict.
  destruct (make_properties schema names ∅) as [properties|e] eqn:Hprops;
    simpl; [|split; [done|by eapply make_properties_Raise]].
  assert (∀ name, name ∈ names →
            properties !! name = Some (ref_dict (definition_ref name)))
    as Hin by (intros; by eapply make_properties_lookup).
  assert (∀ name, name ∉ names → properties !! name = None) as Hnotin.
  { intros name ?.
    by rewrite (make_properties_frame _ _ _ _ _ Hprops), lookup_empty. }
  apply make_properties_resolves in Hprops as Hall.
  set (d := if match required with [] => false | _ :: _ => true end
            then <["required" := VList (VStr <$> required)]>
                   ({[ "type" := VStr "object";
                       "additionalProperties" := VBool true;
                       "properties" := VDict properties ]}
                    : gmap string value)
            else {[ "type" := VStr "object";
                    "additionalProperties" := VBool true;
                    "properties" := VDict properties ]}).
  assert (d !! "required" =
            match required with
            | [] => None
            | _ :: _ => Some (VList (VStr <$> required))
            end) as Hreq by (subst d; by destruct required).
  match goal with
  | |- match ?built with _ => _ end =>
      assert (built = Ok (VDict d)) as -> by (subst d; by destruct required)
  end.
  right. split; [done|]. split; [done|].
  exists d, properties. split; [done|].
  assert (d !! "properties" = Some (VDict properties)) as Hpd
    by (subst d; by destruct required).
  clearbody d.
  assert (required_list d = VStr <$> take (n - k) names) as Hrl.
  { unfold required_list. rewrite Hreq, <- Hrequired.
    by destruct required. }
  assert (∀ i name, names !! i = Some name →
            VStr name ∈ required_list d ↔ i < n - k) as Hidx.
  { intros i name Hi. rewrite Hrl, list_elem_of_fmap. split.
    - intros (name' & [= <-] & (j & Hj & Hlt)%elem_of_take).
      by rewrite (NoDup_lookup _ _ _ _ Hnames Hi Hj).
    - intros Hlt. exists name. split; [done|].
      apply elem_of_take. eauto. }
  split_and!; [done| |done|done| |].
  - intros name. split.
    + intros [v Hv]. destruct (decide (name ∈ names)) as [|Hout]; [done|].
      rewrite (Hnotin _ Hout) in Hv. done.
    + intros ?. rewrite Hin by done. eauto.
  - rewrite Hreq, Hrequired.
    assert (length (take (n - k) names) = n - k) as Hlen
      by (rewrite length_take; subst n; lia).
    destruct (take (n - k) names); simpl in Hlen; split;
      try (intros [? ?]; done); try lia; eauto.
  - intros self -> Hhead.
    destruct arg_names as [|self' rest]; simplify_eq/=.
    apply NoDup_cons in Hnodup as [Hself _].
    split; [by apply Hnotin|].
    rewrite Hrl, list_elem_of_fmap.
    intros (name' & [= <-] & Htake).
    apply Hself. by apply subseteq_take in Htake.
Qed.

(** ** Annotation.collect_properties *)

(** Destructs the tests of one iteration of [collect_loop] in hypothesis
    [H]. *)
Ltac collect_step H :=
  simpl in H;
  repeat match type of H with
         | context [py_getitem ?s ?k] =>
             let E := fresh "Hschema" in
             destruct (py_getitem s k) eqn:E; simpl in H; [|done]
         | context [py_in ?n ?c] =>
             let E := fresh "Hpresent" in
             destruct (py_in n c) as [[]|] eqn:E; simpl in H
         | context [@lookup nat value _ _ ?i ?l] =>
             let E := fresh "Hpositional" in
             destruct (@lookup nat value _ _ i l) eqn:E
         | context [@lookup string value _ _ ?n ?m] =>
             let E := fresh "Hkeyword" in
             destruct (@lookup string value _ _ n m) eqn:E
         end;
  try done.

Lemma collect_loop_frame sch args (kwargs : gmap string value) i names acc
    props name :
  collect_loop sch args kwargs i names acc = Ok props →
  name ∉ names →
  props !! name = acc !! name.
Proof.
  revert i acc. induction names as [|n names IH]; intros i acc Hloop.
  - by simplify_eq/=.
  - intros [Hne Hnotin]%not_elem_of_cons.
    collect_step Hloop; rewrite (IH _ _ Hloop Hnotin);
      by rewrite ?lookup_insert_ne.
Qed.

Lemma collect_loop_sound sch args (kwargs : gmap string value) i names acc
    props name v :
  collect_loop sch args kwargs i names acc = Ok props →
  props !! name = Some v →
  acc !! name = Some v ∨
  ∃ j, names !! j = Some name ∧ declared sch name ∧
       (args !! (i + j) = Some v ∨
        (args !! (i + j) = None ∧ kwargs !! name = Some v)).
Proof.
  revert i acc. induction names as [|n names IH]; intros i acc Hloop Hv.
  - left. by simplify_eq/=.
  - assert (∀ acc',
      collect_loop sch args kwargs (S i) names acc' = Ok props →
      (acc' !! name = Some v →
         acc !! name = Some v ∨
         (n = name ∧ declared sch name ∧
          (args !! i = Some v ∨
           (args !! i = None ∧ kwargs !! name = Some v)))) →
      acc !! name = Some v ∨
      ∃ j, (n :: names) !! j = Some name ∧ declared sch name ∧
           (args !! (i + j) = Some v ∨
            (args !! (i + j) = None ∧ kwargs !! name = Some v))) as Hrest.
    { intros acc' Hloop' Hacc.
      destruct (IH _ _ Hloop' Hv) as [Hacc'|(j & Hj & Hd & Hsup)].
      - destruct (Hacc Hacc') as [?|(-> & Hd & Hsup)]; [by left|].
        right. exists 0. by rewrite Nat.add_0_r.
      - right. exists (S j). by rewrite Nat.add_succ_r. }
    collect_step Hloop; eapply Hrest; try done; try (by left).
    + intros [[<- <-]|[_ ?]]%lookup_insert_Some; [right|by left].
      split; [done|]. split; [by eexists|by left].
    + intros [[<- <-]|[_ ?]]%lookup_insert_Some; [right|by left].
      split; [done|]. split; [by eexists|by right].
Qed.

Lemma collect_loop_positional sch args (kwargs : gmap string value) i names
    acc props j name v :
  collect_loop sch args kwargs i names acc = Ok props →
  NoDup names →
  names !! j = Some name →
  declared sch name →
  args !! (i + j) = Some v →
  props !! name = Some v.
Proof.
  intros Hloop Hnodup Hj (container & Hc & Hin) Hv.
  revert i j acc Hloop Hj Hv.
  induction names as [|n names IH]; intros i j acc Hloop Hj Hv; [done|].
  apply NoDup_cons in Hnodup as [Hn Hnodup].
  destruct j as [|j]; simplify_eq/=.
  - rewrite Nat.add_0_r in Hv. rewrite Hc in Hloop. simpl in Hloop.
    rewrite Hin in Hloop. simpl in Hloop. rewrite Hv in Hloop.
    rewrite (collect_loop_frame _ _ _ _ _ _ _ _ Hloop Hn).
    apply lookup_insert_eq.
  - rewrite Nat.add_succ_r in Hv.
    collect_step Hloop; by eapply (IH Hnodup (S i) j).
Qed.

Lemma collect_loop_keyword sch args (kwargs : gmap string value) i names
    acc props j name v :
  collect_loop sch args kwargs i names acc = Ok props →
  NoDup names →
  names !! j = Some name →
  declared sch name →
  args !! (i + j) = None →
  kwargs !! name = Some v →
  props !! name = Some v.
Proof.
  intros Hloop Hnodup Hj (container & Hc & Hin) Hpos Hv.
  revert i j acc Hloop Hj Hpos.
  induction names as [|n names IH]; intros i j acc Hloop Hj Hpos; [done|].
  apply NoDup_cons in Hnodup as [Hn Hnodup].
  destruct j as [|j]; simplify_eq/=.
  - rewrite Nat.add_0_r in Hpos. rewrite Hc in Hloop. simpl in Hloop.
    rewrite Hin in Hloop. simpl in Hloop. rewrite Hpos, Hv in Hloop.
    rewrite (collect_loop_frame _ _ _ _ _ _ _ _ Hloop Hn).
    apply lookup_insert_eq.
  - rewrite Nat.add_succ_r in Hpos.
    collect_step Hloop; by eapply (IH Hnodup (S i) j).
Qed.

Lemma collect_loop_total sch args (kwargs : gmap string value) i names acc
    d :
  py_getitem sch "properties" = Ok (VDict d) →
  is_Ok (collect_loop sch args kwargs i names acc).
Proof.
  intros Hc. revert i acc.
  induction names as [|n names IH]; intros i acc; simpl; [by eexists|].
  rewrite Hc. simpl.
  destruct (negb _), (args !! i), (kwargs !! n); apply IH.
Qed.

Section collect.
Context {St : Type}.
Implicit Types (self : Annotation St) (func : pyobj St).
Implicit Types (call_args : list value) (call_kwargs : gmap string value).

Lemma wrapper_validates_properties schema self func call_args call_kwargs
    (s : St) properties :
  is_none (args_schema self) = false →
  collect_properties self call_args call_kwargs = Ok properties →
  wrapper schema self func call_args call_kwargs s =
    match validator schema (VDict properties) (args_schema self) with
    | Raise e => (Raise e, s)
    | Ok _ =>
        match invoke func call_args call_kwargs s with
        | (Raise e, s') => (Raise e, s')
        | (Ok r, s') =>
            match (if negb (is_none (result_schema self))
                   then validator schema r (result_schema self)
                   else Ok ()) with
            | Raise e => (Raise e, s')
            | Ok _ => (Ok r, s')
            end
        end
    end.
Proof. intros Hnone Hprops. unfold wrapper. by rewrite Hnone, Hprops. Qed.

(** C2. The mapping that [collect_properties] returns holds only declared
    argument names that are found in the declared properties of the args
    schema, each with the value the call supplied for it; a name that the
    call supplies neither by position nor by keyword is left out; and when
    the declared properties are a dictionary the extraction never raises.
    The wrapper hands the validator this mapping and nothing else of the
    arguments, so an argument the caller left out is not validated: two
    validators that agree on the mapping (and on results) give the same
    outcome of the call. *)
Theorem collect_properties_declared_only self call_args call_kwargs :
  (∀ properties,
     collect_properties self call_args call_kwargs = Ok properties →
     ∀ name,
       (∀ v, properties !! name = Some v →
          ∃ i, arg_names self !! i = Some name ∧
               declared (args_schema self) name ∧
               (call_args !! i = Some v ∨
                (call_args !! i = None ∧ call_kwargs !! name = Some v))) ∧
       ((∀ i, arg_names self !! i = Some name → call_args !! i = None) →
        call_kwargs !! name = None →
        properties !! name = None)) ∧
  (∀ d, py_getitem (args_schema self) "properties" = Ok (VDict d) →
     is_Ok (collect_properties self call_args call_kwargs)) ∧
  (∀ properties schema1 schema2 func (s : St),
     is_none (args_schema self) = false →
     collect_properties self call_args call_kwargs = Ok properties →
     validator schema1 (VDict properties) (args_schema self) =
       validator schema2 (VDict properties) (args_schema self) →
     (∀ r, validator schema1 r (result_schema self) =
             validator schema2 r (result_schema self)) →
     wrapper schema1 self func call_args call_kwargs s =
       wrapper schema2 self func call_args call_kwargs s).
Proof.
  split_and!.
  - intros properties Hprops name.
    assert (∀ v, properties !! name = Some v →
              ∃ i, arg_names self !! i = Some name ∧
                   declared (args_schema self) name ∧
                   (call_args !! i = Some v ∨
                    (call_args !! i = None ∧ call_kwargs !! name = Some v)))
      as Hsound.
    { intros v Hv.
      destruct (collect_loop_sound _ _ _ _ _ _ _ _ _ Hprops Hv)
        as [Hempty|Hj]; [by rewrite lookup_empty in Hempty | done]. }
    split; [done|]. intros Hpos Hkw.
    destruct (properties !! name) as [v|] eqn:Hv; [|done].
    destruct (Hsound v eq_refl) as (i & Hi & _ & [Hsup|[_ Hsup]]).
    + rewrite (Hpos i Hi) in Hsup. done.
    + rewrite Hkw in Hsup. done.
  - intros d Hd. by eapply collect_loop_total.
  - intros properties schema1 schema2 func s Hnone Hprops Hargs Hres.
    rewrite !(wrapper_validates_properties _ _ _ _ _ _ _ Hnone Hprops).
    rewrite Hargs.
    destruct (validator schema2 _ _); [|done].
    destruct (invoke func call_args call_kwargs s) as [[r|e] s']; [|done].
    by rewrite Hres.
Qed.

(** C3, as the code has it. When a declared argument name is supplied
    both by position and by keyword, the positional value is the one that
    [collect_properties] returns for it. *)
Theorem collect_properties_positional_precedence self call_args call_kwargs
    i name positional keyword properties :
  NoDup (arg_names self) →
  arg_names self !! i = Some name →
  declared (args_schema self) name →
  call_args !! i = Some positional →
  call_kwargs !! name = Some keyword →
  collect_properties self call_args call_kwargs = Ok properties →
  properties !! name = Some positional.
Proof.
  intros Hnodup Hi Hdeclared Hpos _ Hprops.
  by eapply (collect_loop_positional _ _ _ 0 _ _ _ i).
Qed.

(** The keyword value is the one returned when the position of the name
    is beyond the positional arguments. *)
Lemma collect_properties_keyword_fallback self call_args call_kwargs
    i name keyword properties :
  NoDup (arg_names self) →
  arg_names self !! i = Some name →
  declared (args_schema self) name →
  call_args !! i = None →
  call_kwargs !! name = Some keyword →
  collect_properties self call_args call_kwargs = Ok properties →
  properties !! name = Some keyword.
Proof.
  intros Hnodup Hi Hdeclared Hpos Hkw Hprops.
  by eapply (collect_loop_keyword _ _ _ 0 _ _ _ i).
Qed.

End collect.

(** ** get_wrapped and with_wraps *)

Section wraps.
Context {St : Type}.
Implicit Types (wraps : gmap loc (pyobj St)) (func root : pyobj St).
Implicit Types (path : list (pyobj St)).

Lemma chain_end wraps func path root :
  chain wraps func path root → wraps !! obj_id root = None.
Proof. by induction 1. Qed.

Lemma chain_unique wraps func path1 root1 path2 root2 :
  chain wraps func path1 root1 →
  chain wraps func path2 root2 →
  path1 = path2 ∧ root1 = root2.
Proof.
  intros Hc1. revert path2. induction Hc1 as [f Hf|f f' p r Hf _ IH];
    intros path2 Hc2; inversion Hc2; simplify_eq; [done|].
  by destruct (IH _ ltac:(eassumption)) as [-> ->].
Qed.

Lemma get_wrapped_fuel_chain wraps func path root fuel :
  chain wraps func path root →
  length path ≤ fuel →
  get_wrapped_fuel fuel wraps func = Some root.
Proof.
  intros Hc. revert fuel. induction Hc as [f Hf|f f' p r Hf _ IH];
    intros fuel Hfuel.
  - destruct fuel; simpl; by rewrite Hf.
  - destruct fuel as [|fuel]; simpl in *; [lia|].
    rewrite Hf. apply IH. lia.
Qed.

Lemma get_wrapped_fuel_Some wraps func root fuel :
  get_wrapped_fuel fuel wraps func = Some root →
  ∃ path, chain wraps func path root ∧ length path ≤ fuel.
Proof.
  revert func. induction fuel as [|fuel IH]; intros func; simpl;
    destruct (wraps !! obj_id func) as [func'|] eqn:Hf; try done.
  - intros [= <-]. exists []. split; [by constructor | done].
  - intros (path & Hc & Hlen)%IH. exists (func :: path).
    split; [by econstructor | simpl; lia].
  - intros [= <-]. exists []. split; [by constructor | simpl; lia].
Qed.

(** A walk that ends does not come back to an object it has left: the
    rest of the walk is unchanged when that object loses its attribute. *)
Lemma chain_delete wraps func func' path root :
  wraps !! obj_id func = Some func' →
  chain wraps func' path root →
  chain (delete (obj_id func) wraps) func' path root.
Proof.
  intros Hf Hc.
  assert (∀ g p, chain wraps g p root → length p ≤ length path →
            chain (delete (obj_id func) wraps) g p root) as Hgen; [|eauto].
  intros g p Hg. induction Hg as [g Hg|g g' p r Hg Hrest IH]; intros Hlen.
  - constructor. by apply lookup_delete_None; right.
  - simpl in Hlen.
    assert (obj_id g ≠ obj_id func) as Hne.
    { intros Heq. rewrite Heq, Hf in Hg. simplify_eq.
      destruct (chain_unique _ _ _ _ _ _ Hc Hrest) as [-> _]. lia. }
    econstructor; [by rewrite lookup_delete_ne | apply IH; [done|lia]].
Qed.

Lemma chain_length wraps func path root :
  chain wraps func path root → length path ≤ size wraps.
Proof.
  revert wraps func. induction path as [|g path IH]; intros wraps func Hc;
    simpl; [lia|].
  inversion Hc as [|f f' p r Hf Hrest]; simplify_eq.
  apply (chain_delete _ _ _ _ _ Hf), IH in Hrest.
  rewrite map_size_delete, Hf in Hrest. simpl in Hrest.
  assert (size wraps ≠ 0); [|lia].
  intros ->%map_size_empty_inv. by rewrite lookup_empty in Hf.
Qed.

(** Whenever the loop of [get_wrapped] ends, it ends within [size wraps]
    iterations. *)
Lemma get_wrapped_fuel_size wraps func root fuel :
  get_wrapped_fuel fuel wraps func = Some root →
  get_wrapped wraps func = Some root.
Proof.
  intros (path & Hc & _)%get_wrapped_fuel_Some.
  eapply get_wrapped_fuel_chain; [done|by eapply chain_length].
Qed.

(** When [get_wrapped] has no result, the loop of the source never ends,
    whatever the number of iterations it is given. *)
Lemma get_wrapped_None wraps func fuel :
  get_wrapped wraps func = None →
  get_wrapped_fuel fuel wraps func = None.
Proof.
  intros Hnone.
  destruct (get_wrapped_fuel fuel wraps func) as [root|] eqn:Hfuel; [|done].
  apply get_wrapped_fuel_size in Hfuel. congruence.
Qed.

Lemma chain_insert_fresh wraps func path root id x :
  chain wraps func path root →
  id ∉ obj_id <$> path →
  id ≠ obj_id root →
  chain (<[id := x]> wraps) func path root.
Proof.
  induction 1 as [f Hf|f f' p r Hf _ IH]; intros Hpath Hroot.
  - constructor. by rewrite lookup_insert_ne.
  - rewrite fmap_cons in Hpath. apply not_elem_of_cons in Hpath as [? ?].
    econstructor; [by rewrite lookup_insert_ne | by apply IH].
Qed.

(** [with_wraps] records on the wrapper a back-reference to the function
    it was given. *)
Lemma with_wraps_records (decorator : pyobj St → decoration St) func rest w
    wrapped w' :
  with_wraps decorator (func :: rest) w = Some (Ok wrapped, w') →
  callable func = true ∧
  ∃ w1, decorator func w = Some (Ok wrapped, w1) ∧
        attr_wraps w' = <[obj_id wrapped := func]> (attr_wraps w1).
Proof.
  unfold with_wraps. destruct (callable func); simpl; [|done].
  destruct (decorator func w) as [[[g|e] w1]|]; intros ?; simplify_eq.
  split; [done|]. by exists w1.
Qed.

(** A wrapper that is a new object extends the chain of the function it
    wraps. *)
Lemma with_wraps_chain (decorator : pyobj St → decoration St) func rest w
    wrapped w' w1 path root :
  with_wraps decorator (func :: rest) w = Some (Ok wrapped, w') →
  decorator func w = Some (Ok wrapped, w1) →
  chain (attr_wraps w1) func path root →
  obj_id wrapped ∉ obj_id <$> path →
  obj_id wrapped ≠ obj_id root →
  chain (attr_wraps w') wrapped (wrapped :: path) root.
Proof.
  intros (_ & w1' & Hdec & ->)%with_wraps_records Hdec' Hc Hpath Hroot.
  simplify_eq. econstructor; [apply lookup_insert_eq|].
  by apply chain_insert_fresh.
Qed.

(** C9. From the outermost wrapper of a chain of back-references,
    [get_wrapped] returns the callable at the end of the chain, the one
    without a back-reference; a callable without a back-reference resolves
    to itself. *)
Theorem get_wrapped_chain wraps func path root :
  chain wraps func path root →
  get_wrapped wraps func = Some root ∧
  wraps !! obj_id root = None ∧
  (wraps !! obj_id func = None → root = func).
Proof.
  intros Hc. split_and!.
  - eapply get_wrapped_fuel_chain; [done|by eapply chain_length].
  - by eapply chain_end.
  - intros Hf. by inversion Hc; simplify_eq.
Qed.

End wraps.

(** ** annotate *)

Lemma make_properties_first_unresolved schema names acc e :
  first_unresolved schema names e →
  make_properties schema names acc = Raise e.
Proof.
  intros (pre & bad & post & -> & Hpre & Hbad). revert acc.
  induction Hpre as [|n pre [v Hn] _ IH]; intros acc; simpl.
  - by rewrite Hbad.
  - rewrite Hn. simpl. apply IH.
Qed.

Lemma make_schema_dict_unresolved schema usage names required_names e :
  unresolved_spec schema names e →
  make_schema_dict schema usage names required_names = Raise e.
Proof.
  destruct names as [| |name|d|names|v]; simpl; try done.
  - by intros ->.
  - by intros ->%(make_properties_first_unresolved _ _ ∅).
Qed.

Lemma make_schema_dict_lacks_properties schema usage names required_names
    args_schema :
  lacks_properties names →
  make_schema_dict schema usage names required_names = Ok args_schema →
  ∃ d, args_schema = VDict d ∧ d !! "properties" = None.
Proof.
  destruct names as [| |name|d|names|v]; simpl; try done.
  - intros _. destruct (resolve schema (definition_ref name)); simpl;
      intros ?; simplify_eq. by eexists.
  - intros Hd ?; simplify_eq. by eexists.
Qed.

Section annotate.
Context {St : Type}.
Implicit Types (func root wrapped : pyobj St) (rest : list (pyobj St)).
Implicit Types (w : world St) (a : Annotation St).
Implicit Types (call_args : list value) (call_kwargs : gmap string value).

Lemma create_Ok root (schema0 : Schema) (args_schema0 result_schema0 : value)
    (is_method0 : bool) a :
  create root schema0 args_schema0 result_schema0 is_method0 = Ok a →
  ∃ f,
    reflected_function root = Some f ∧
    annotated_func a = root ∧ func a = f ∧
    is_method a = treated_as_method root is_method0 ∧
    arg_names a = spec_args (fn_argspec f) ∧
    default_values a = spec_defaults (fn_argspec f) ∧
    schema a = schema0 ∧
    result_schema a = result_schema0 ∧
    (if is_unset args_schema0
     then create_args_schema schema0 (spec_args (fn_argspec f))
            (spec_defaults (fn_argspec f))
            (treated_as_method root is_method0) = Ok (args_schema a)
     else args_schema a = args_schema0).
Proof.
  unfold create, treated_as_method.
  destruct (callable root); simpl; [|done].
  destruct (reflected_function root) as [f|]; [|done].
  destruct (fn_argspec f) as [names va kw defaults] eqn:Hspec; simpl.
  destruct (is_unset args_schema0).
  - destruct (create_args_schema _ _ _ _) eqn:Hcreate; simpl; [|done].
    intros [= <-]. exists f. by rewrite Hspec.
  - simpl. intros [= <-]. exists f. by rewrite Hspec.
Qed.

Lemma create_total root (schema0 : Schema) (args_schema0 result_schema0 : value)
    (is_method0 : bool) f :
  reflected_function root = Some f →
  (if is_unset args_schema0
   then is_Ok (create_args_schema schema0 (spec_args (fn_argspec f))
                 (spec_defaults (fn_argspec f))
                 (treated_as_method root is_method0))
   else True) →
  is_Ok (create root schema0 args_schema0 result_schema0 is_method0).
Proof.
  unfold create, treated_as_method. intros Hf.
  assert (callable root = true) as -> by (by destruct root).
  rewrite Hf. simpl.
  destruct (fn_argspec f) as [names va kw defaults]; simpl.
  destruct (is_unset args_schema0).
  - intros [v ->]. simpl. by eexists.
  - intros _. simpl. by eexists.
Qed.

Lemma annotate_Ok (schema0 : Schema) args required_args result_names
    (is_method0 : bool) dec :
  annotate schema0 args required_args result_names is_method0 = Ok dec →
  ∃ args_schema0 result_schema0,
    make_schema_dict schema0 "args" args required_args = Ok args_schema0 ∧
    make_schema_dict schema0 "result" result_names None = Ok result_schema0 ∧
    dec = with_wraps (St:=St)
            (decorator schema0 args_schema0 result_schema0 is_method0).
Proof.
  unfold annotate, with_wraps_arguments, annotate_body. simpl.
  destruct (make_schema_dict schema0 "args" _ _) as [args_schema0|];
    simpl; [|done].
  destruct (make_schema_dict schema0 "result" _ _) as [result_schema0|];
    simpl; [|done].
  intros [= <-]. by eexists _, _.
Qed.

Lemma copy_attr_lookup_src {A} (src dst : loc) (m : gmap loc A) :
  copy_attr src dst m !! src = m !! src.
Proof.
  unfold copy_attr. destruct (m !! src) as [x|] eqn:Hsrc; [|done].
  destruct (decide (dst = src)) as [->|?].
  - by rewrite lookup_insert_eq.
  - by rewrite lookup_insert_ne.
Qed.

(** What the decorator that [annotate] returns does to a callable. *)
Lemma decorated_spec (schema0 : Schema) (args_schema0 result_schema0 : value)
    (is_method0 : bool) func rest w :
  with_wraps (decorator schema0 args_schema0 result_schema0 is_method0)
    (func :: rest) w =
  if negb (callable func) then Some (Raise TypeError, w) else
  match get_wrapped (attr_wraps w) func with
  | None => None
  | Some root =>
      match create root schema0 args_schema0 result_schema0 is_method0 with
      | Raise e => Some (Raise e, w)
      | Ok a =>
          let wrapped :=
            fst (new_wrapper func (wrapper schema0 a func)
                   (set_doctor_annotation func a w)) in
          let w' :=
            snd (new_wrapper func (wrapper schema0 a func)
                   (set_doctor_annotation func a w)) in
          Some (Ok wrapped,
                set_wraps wrapped func (set_decorated wrapped func w'))
      end
  end.
Proof.
  unfold with_wraps, decorator. destruct (negb (callable func)); [done|].
  destruct (get_wrapped (attr_wraps w) func) as [root|]; [|done].
  by destruct (create root schema0 _ _ _).
Qed.

Lemma decorated_Ok (schema0 : Schema) (args_schema0 result_schema0 : value)
    (is_method0 : bool) func rest w wrapped w' :
  with_wraps (decorator schema0 args_schema0 result_schema0 is_method0)
    (func :: rest) w = Some (Ok wrapped, w') →
  ∃ root a,
    callable func = true ∧
    get_wrapped (attr_wraps w) func = Some root ∧
    create root schema0 args_schema0 result_schema0 is_method0 = Ok a ∧
    invoke wrapped = wrapper schema0 a func ∧
    attr_doctor_annotation w' !! obj_id func = Some a ∧
    attr_wraps w' !! obj_id wrapped = Some func ∧
    attr_decorated w' !! obj_id wrapped = Some func.
Proof.
  rewrite decorated_spec. destruct (callable func); simpl; [|done].
  destruct (get_wrapped (attr_wraps w) func) as [root|]; [|done].
  destruct (create root schema0 _ _ _) as [a|] eqn:Hcreate; [|done].
  intros ?; simplify_eq. exists root, a. split_and!; try done.
  - simpl. rewrite copy_attr_lookup_src. apply lookup_insert_eq.
  - simpl. apply lookup_insert_eq.
  - simpl. apply lookup_insert_eq.
Qed.

Lemma decorated_total (schema0 : Schema) (args_schema0 result_schema0 : value)
    (is_method0 : bool) func rest w root a :
  callable func = true →
  get_wrapped (attr_wraps w) func = Some root →
  create root schema0 args_schema0 result_schema0 is_method0 = Ok a →
  ∃ wrapped w',
    with_wraps (decorator schema0 args_schema0 result_schema0 is_method0)
      (func :: rest) w = Some (Ok wrapped, w').
Proof.
  intros Hcallable Hroot Hcreate.
  rewrite decorated_spec, Hcallable, Hroot, Hcreate. simpl. by eexists _, _.
Qed.

End annotate.

Section decorated.
Context {St : Type}.
Implicit Types (func root wrapped : pyobj St) (rest : list (pyobj St)).
Implicit Types (w : world St) (a : Annotation St).
Implicit Types (call_args : list value) (call_kwargs : gmap string value).
Implicit Types (dec : list (pyobj St) → decoration St).

Lemma wrapper_valid (schema0 : Schema) a func call_args call_kwargs
    (s s' : St) r :
  args_valid schema0 a call_args call_kwargs →
  invoke func call_args call_kwargs s = (Ok r, s') →
  result_valid schema0 a r →
  wrapper schema0 a func call_args call_kwargs s = (Ok r, s').
Proof.
  intros Hargs Hcall Hres. unfold wrapper.
  assert ((if negb (is_none (args_schema a))
           then collect_properties a call_args call_kwargs
                ≫= λ properties,
                     validator schema0 (VDict properties) (args_schema a)
           else Ok ()) = Ok ()) as ->.
  { destruct Hargs as [->|(properties & -> & Hv)]; [done|].
    simpl. by destruct (negb _). }
  rewrite Hcall.
  destruct Hres as [->|Hv]; [done|]. rewrite Hv. by destruct (negb _).
Qed.

Lemma wrapper_invalid (schema0 : Schema) a func call_args call_kwargs
    (s : St) e :
  args_invalid schema0 a call_args call_kwargs e →
  wrapper schema0 a func call_args call_kwargs s = (Raise e, s).
Proof.
  intros (Hnone & properties & Hprops & Hv). unfold wrapper.
  rewrite Hnone, Hprops. simpl. by rewrite Hv.
Qed.

(** C4. For a callable decorated by [annotate]: a call whose extracted
    arguments satisfy the args schema, and whose result satisfies the
    result schema when there is one, returns the result of the wrapped
    callable, with its effects; a call whose extracted arguments violate
    the args schema raises the error of the validator, and the wrapped
    callable is not invoked: the state is the one before the call,
    whatever the wrapped callable would have done. *)
Theorem annotate_round_trip (schema0 : Schema) args required_args
    result_names (is_method0 : bool) dec func rest w wrapped w' :
  annotate schema0 args required_args result_names is_method0 = Ok dec →
  dec (func :: rest) w = Some (Ok wrapped, w') →
  ∃ a,
    attr_doctor_annotation w' !! obj_id func = Some a ∧
    ∀ call_args call_kwargs (s : St),
      (∀ r s',
         args_valid schema0 a call_args call_kwargs →
         invoke func call_args call_kwargs s = (Ok r, s') →
         result_valid schema0 a r →
         invoke wrapped call_args call_kwargs s = (Ok r, s')) ∧
      (∀ e,
         args_invalid schema0 a call_args call_kwargs e →
         invoke wrapped call_args call_kwargs s = (Raise e, s) ∧
         ∀ func', wrapper schema0 a func' call_args call_kwargs s =
                    (Raise e, s)).
Proof.
  intros (args_schema0 & result_schema0 & _ & _ & ->)%annotate_Ok
    (root & a & _ & _ & _ & Hinvoke & Hattr & _)%decorated_Ok.
  exists a. split; [done|]. intros call_args call_kwargs s.
  rewrite Hinvoke. split.
  - intros r s'. apply wrapper_valid.
  - intros e He. split; [|intros func']; by apply wrapper_invalid.
Qed.

(** C7. A callable without declared parameters, or one treated as a
    method whose only declared parameter is the leading one, annotated
    without an explicit args spec, gets an annotation whose args schema is
    [None]; a call of the decorated callable then invokes the wrapped
    callable without any check of the arguments. *)
Theorem annotate_no_parameters (schema0 : Schema) required_args result_names
    (is_method0 : bool) dec func rest w root f :
  annotate schema0 NamesUnset required_args result_names is_method0 =
    Ok dec →
  callable func = true →
  get_wrapped (attr_wraps w) func = Some root →
  reflected_function root = Some f →
  spec_args (fn_argspec f) = [] ∨
  (treated_as_method root is_method0 = true ∧
   length (spec_args (fn_argspec f)) = 1) →
  ∃ wrapped w' a,
    dec (func :: rest) w = Some (Ok wrapped, w') ∧
    attr_doctor_annotation w' !! obj_id func = Some a ∧
    args_schema a = VNone ∧
    ∀ call_args call_kwargs (s : St),
      invoke wrapped call_args call_kwargs s =
        match invoke func call_args call_kwargs s with
        | (Raise e, s') => (Raise e, s')
        | (Ok r, s') =>
            match (if negb (is_none (result_schema a))
                   then validator schema0 r (result_schema a)
                   else Ok ()) with
            | Raise e => (Raise e, s')
            | Ok _ => (Ok r, s')
            end
        end.
Proof.
  intros (args_schema0 & result_schema0 & Hargs & _ & ->)%annotate_Ok
    Hcallable Hroot Hf Hnames.
  simpl in Hargs. simplify_eq.
  assert (create_args_schema schema0 (spec_args (fn_argspec f))
            (spec_defaults (fn_argspec f))
            (treated_as_method root is_method0) = Ok VNone) as Hnone.
  { unfold create_args_schema.
    destruct Hnames as [->|[-> Hlen]]; [by destruct (treated_as_method _ _)|].
    by destruct (spec_args (fn_argspec f)) as [|? [|? ?]]. }
  destruct (create_total root schema0 VUnset result_schema0 is_method0 f Hf)
    as [a Hcreate]; [simpl; by eexists|].
  destruct (decorated_total _ _ _ _ _ rest _ _ _ Hcallable Hroot Hcreate)
    as (wrapped & w' & Hdec).
  exists wrapped, w', a. split; [done|].
  apply decorated_Ok in Hdec
    as (root' & a' & _ & Hroot' & Hcreate' & Hinvoke & Hattr & _).
  rewrite Hroot in Hroot'. simplify_eq. rewrite Hcreate in Hcreate'.
  simplify_eq.
  apply create_Ok in Hcreate as (f' & Hf' & _ & _ & _ & _ & _ & _ & _ & Has).
  simplify_eq/=. rewrite Hnone in Has. simplify_eq.
  split; [done|]. split; [done|]. intros call_args call_kwargs s.
  rewrite Hinvoke. unfold wrapper. by rewrite <- Has.
Qed.

(** C8. [annotate] builds the args schema and the result schema when it
    is called, before it returns a decorator: with an explicit spec that
    names a definition that does not resolve, the call of [annotate]
    itself raises the resolution error, for the args spec first and then
    for the result spec; and when it returns a decorator, both schemas
    were built, and they are the ones on the annotation of every callable
    that is decorated. *)
Theorem annotate_eager (schema0 : Schema) args required_args result_names
    (is_method0 : bool) :
  (∀ e, unresolved_spec schema0 args e →
     annotate (St:=St) schema0 args required_args result_names is_method0 =
       Raise e) ∧
  (∀ e, is_Ok (make_schema_dict schema0 "args" args required_args) →
     unresolved_spec schema0 result_names e →
     annotate (St:=St) schema0 args required_args result_names is_method0 =
       Raise e) ∧
  (∀ dec,
     annotate schema0 args required_args result_names is_method0 = Ok dec →
     ∃ args_schema0 result_schema0,
       make_schema_dict schema0 "args" args required_args =
         Ok args_schema0 ∧
       make_schema_dict schema0 "result" result_names None =
         Ok result_schema0 ∧
       ∀ func rest w wrapped w',
         dec (func :: rest) w = Some (Ok wrapped, w') →
         ∃ a, attr_doctor_annotation w' !! obj_id func = Some a ∧
              result_schema a = result_schema0 ∧
              (is_unset args_schema0 = false →
               args_schema a = args_schema0)).
Proof.
  split_and!.
  - intros e He. unfold annotate, with_wraps_arguments, annotate_body. simpl.
    by rewrite (make_schema_dict_unresolved _ _ _ _ _ He).
  - intros e [v Hv] He.
    unfold annotate, with_wraps_arguments, annotate_body. simpl.
    rewrite Hv. simpl.
    by rewrite (make_schema_dict_unresolved _ _ _ _ _ He).
  - intros dec (args_schema0 & result_schema0 & Hargs & Hres & ->)%annotate_Ok.
    exists args_schema0, result_schema0. split; [done|]. split; [done|].
    intros func rest w wrapped w'
      (root & a & _ & _ & Hcreate & _ & Hattr & _)%decorated_Ok.
    exists a. split; [done|].
    apply create_Ok in Hcreate as (f & _ & _ & _ & _ & _ & _ & _ & Hr & Has).
    split; [done|]. intros Hset. by rewrite Hset in Has.
Qed.

(** C10, as the code has it. When the args spec is a string, or a
    dictionary without a ["properties"] key, and the annotated function
    declares at least one parameter name, every call of the decorated
    callable raises [KeyError] for ["properties"] in the extraction of the
    arguments, before the wrapped callable runs. *)
Theorem annotate_lacking_properties (schema0 : Schema) args required_args
    result_names (is_method0 : bool) dec func rest w wrapped w' root f :
  annotate schema0 args required_args result_names is_method0 = Ok dec →
  lacks_properties args →
  dec (func :: rest) w = Some (Ok wrapped, w') →
  get_wrapped (attr_wraps w) func = Some root →
  reflected_function root = Some f →
  spec_args (fn_argspec f) ≠ [] →
  ∀ call_args call_kwargs (s : St),
    invoke wrapped call_args call_kwargs s =
      (Raise (KeyError "properties"), s).
Proof.
  intros (args_schema0 & result_schema0 & Hargs & _ & ->)%annotate_Ok
    Hlacks (root' & a & _ & Hroot' & Hcreate & Hinvoke & _)%decorated_Ok
    Hroot Hf Hnames call_args call_kwargs s.
  simplify_eq.
  destruct (make_schema_dict_lacks_properties _ _ _ _ _ Hlacks Hargs)
    as (d & -> & Hd).
  apply create_Ok in Hcreate
    as (f' & Hf' & _ & _ & _ & Hnames' & _ & _ & _ & Has).
  simplify_eq/=. rewrite Hinvoke. unfold wrapper, collect_properties.
  rewrite Has, Hnames'. simpl.
  destruct (spec_args (fn_argspec f')); [done|]. simpl. by rewrite Hd.
Qed.

End decorated.

(** * Further properties *)

(** ** make_schema_dict and create_args_schema *)

Lemma make_properties_total schema names acc :
  Forall (resolves schema) names →
  ∃ properties, make_properties schema names acc = Ok properties.
Proof.
  intros Hall. revert acc.
  induction Hall as [|name names [v Hname] _ IH]; intros acc; simpl.
  - by eexists.
  - rewrite Hname. simpl. apply IH.
Qed.

(** X1. The object schema built for a list of names depends on the names
    listed, not on their order or on repetitions: when one list builds a
    schema, every list with the same elements builds the same schema. *)
Theorem make_schema_dict_list_same_names schema usage names1 names2
    required_names new_schema :
  (∀ name, name ∈ names1 ↔ name ∈ names2) →
  make_schema_dict schema usage (NamesList names1) required_names =
    Ok new_schema →
  make_schema_dict schema usage (NamesList names2) required_names =
    Ok new_schema.
Proof.
  intros Hsame. unfold make_schema_dict.
  destruct (make_properties schema names1 ∅) as [properties1|] eqn:Hprops1;
    simpl; [|done].
  destruct (make_properties_total schema names2 ∅) as [properties2 Hprops2].
  { apply Forall_forall. intros name Hname%Hsame.
    pose proof (make_properties_resolves _ _ _ _ Hprops1) as Hall.
    by eapply Forall_forall in Hall. }
  rewrite Hprops2. simpl.
  assert (properties2 = properties1) as ->; [|done].
  apply map_eq. intros name.
  destruct (decide (name ∈ names1)) as [Hin|Hout].
  - rewrite (make_properties_lookup _ _ _ _ _ Hprops1 Hin).
    apply Hsame in Hin.
    by rewrite (make_properties_lookup _ _ _ _ _ Hprops2 Hin).
  - rewrite (make_properties_frame _ _ _ _ _ Hprops1 Hout).
    rewrite Hsame in Hout.
    by rewrite (make_properties_frame _ _ _ _ _ Hprops2 Hout).
Qed.

(** The schema that [create_args_schema] returns: [None], or an object
    schema over the names that are left. *)
Lemma create_args_schema_Ok (schema : Schema) (arg_names : list string)
    (default_values : option (list value)) (is_method : bool) derived :
  create_args_schema schema arg_names default_values is_method =
    Ok derived →
  let names := if is_method then drop 1 arg_names else arg_names in
  (names = [] ∧ derived = VNone) ∨
  (names ≠ [] ∧
   ∃ d properties,
     derived = VDict d ∧
     d !! "properties" = Some (VDict properties) ∧
     make_properties schema names ∅ = Ok properties).
Proof.
  unfold create_args_schema.
  set (names := if is_method then drop 1 arg_names else arg_names).
  simpl. clearbody names.
  destruct (decide (names = [])) as [->|Hne]; [intros [= <-]; by left|].
  rewrite match_nonempty by done. unfold make_schema_dict.
  destruct (make_properties schema names ∅) as [properties|] eqn:Hprops;
    simpl; [|done].
  intros Hbuilt. right. split; [done|].
  destruct (if truthy_defaults default_values then _ else _);
    simplify_eq; by eexists _, properties.
Qed.

(** ** collect_properties on the annotations that create builds *)

Section collect_more.
Context {St : Type}.
Implicit Types (self a : Annotation St) (root : pyobj St).
Implicit Types (call_args : list value) (call_kwargs : gmap string value).

(** X2. With declared properties that are a dictionary and distinct
    parameter names, [collect_properties] returns, for the parameter at
    position [i]: nothing when its name is not a declared property;
    otherwise the positional argument at [i] when there is one, and else
    the keyword argument of that name when there is one. Names that are
    not parameters have no entry. *)
Theorem collect_properties_exact self call_args call_kwargs
    declared_properties :
  py_getitem (args_schema self) "properties" =
    Ok (VDict declared_properties) →
  NoDup (arg_names self) →
  ∃ properties,
    collect_properties self call_args call_kwargs = Ok properties ∧
    (∀ i name, arg_names self !! i = Some name →
       properties !! name =
         match declared_properties !! name with
         | None => None
         | Some _ =>
             match call_args !! i with
             | Some v => Some v
             | None => call_kwargs !! name
             end
         end) ∧
    (∀ name, name ∉ arg_names self → properties !! name = None).
Proof.
  intros Hschema Hnodup.
  destruct (collect_loop_total (args_schema self) call_args call_kwargs 0
              (arg_names self) ∅ _ Hschema) as [properties Hprops].
  exists properties. split; [done|]. split.
  - intros i name Hi.
    destruct (declared_properties !! name) as [sub|] eqn:Hname.
    + assert (declared (args_schema self) name) as Hdeclared.
      { eexists. split; [done|]. simpl. by rewrite Hname. }
      destruct (call_args !! i) as [v|] eqn:Hpos.
      * by eapply (collect_loop_positional _ _ _ 0 _ _ _ i).
      * destruct (call_kwargs !! name) as [v|] eqn:Hkw.
        -- by eapply (collect_loop_keyword _ _ _ 0 _ _ _ i).
        -- destruct (properties !! name) as [v|] eqn:Hv; [|done].
           destruct (collect_loop_sound _ _ _ _ _ _ _ _ _ Hprops Hv)
             as [Hempty|(j & Hj & _ & Hsup)];
             [by rewrite lookup_empty in Hempty|].
           rewrite (NoDup_lookup _ _ _ _ Hnodup Hj Hi) in Hsup. simpl in Hsup.
           destruct Hsup as [?|[_ ?]]; congruence.
    + destruct (properties !! name) as [v|] eqn:Hv; [|done].
      destruct (collect_loop_sound _ _ _ _ _ _ _ _ _ Hprops Hv)
        as [Hempty|(j & _ & (container & Hc & Hin) & _)];
        [by rewrite lookup_empty in Hempty|].
      rewrite Hschema in Hc. simplify_eq/=.
      rewrite Hname in Hin. by simpl in Hin.
  - intros name Hout.
    by rewrite (collect_loop_frame _ _ _ _ _ _ _ _ Hprops Hout),
      lookup_empty.
Qed.

(** X3. When none of the parameter names of the function is among the
    declared properties of the args schema, as with an explicit list of
    other names, every call extracts the empty mapping: no argument of
    the call reaches the validator. *)
Theorem collect_properties_disjoint self call_args call_kwargs
    declared_properties :
  py_getitem (args_schema self) "properties" =
    Ok (VDict declared_properties) →
  (∀ name, name ∈ arg_names self → declared_properties !! name = None) →
  collect_properties self call_args call_kwargs = Ok ∅.
Proof.
  intros Hschema. unfold collect_properties.
  generalize 0 (∅ : gmap string value).
  induction (arg_names self) as [|name names IH]; intros i acc Hnone; simpl;
    [done|].
  rewrite Hschema. simpl.
  rewrite (Hnone name) by apply list_elem_of_here. simpl.
  apply IH. intros other Hother. apply Hnone. by apply list_elem_of_further.
Qed.

(** X4. On an annotation that [Annotation.create] derives from the
    parameters of the callable (no explicit args spec) and that has an
    args schema, the extraction of the arguments never raises, whatever
    the call. *)
Theorem collect_properties_derived_total root (schema0 : Schema)
    (result_schema0 : value) (is_method0 : bool) a call_args call_kwargs :
  create root schema0 VUnset result_schema0 is_method0 = Ok a →
  is_none (args_schema a) = false →
  is_Ok (collect_properties a call_args call_kwargs).
Proof.
  intros (f & _ & _ & _ & _ & _ & _ & _ & _ & Hderived)%create_Ok Hnone.
  simpl in Hderived.
  apply create_args_schema_Ok in Hderived
    as [[_ Hv]|(_ & d & properties & Hv & Hd & _)];
    rewrite Hv in Hnone; [done|].
  eapply collect_loop_total. rewrite Hv. simpl. by rewrite Hd.
Qed.

(** X5. For a callable treated as a method, annotated without an
    explicit args spec, the leading parameter ([self]) is never among the
    extracted properties, although it is the first of the annotation's
    [arg_names] and the call passes it by position. *)
Theorem collect_properties_skips_self root (schema0 : Schema)
    (result_schema0 : value) (is_method0 : bool) a self_name rest
    call_args call_kwargs properties :
  create root schema0 VUnset result_schema0 is_method0 = Ok a →
  is_method a = true →
  arg_names a = self_name :: rest →
  NoDup (arg_names a) →
  collect_properties a call_args call_kwargs = Ok properties →
  properties !! self_name = None.
Proof.
  intros (f & _ & _ & _ & Hmethod & Hnames & _ & _ & _ & Hderived)%create_Ok
    Hm Hargs Hnodup Hprops.
  simpl in Hderived. rewrite <- Hmethod, Hm, <- Hnames, Hargs in Hderived.
  rewrite Hargs in Hnodup. apply NoDup_cons in Hnodup as [Hself _].
  destruct (properties !! self_name) as [v|] eqn:Hv; [|done].
  destruct (collect_loop_sound _ _ _ _ _ _ _ _ _ Hprops Hv)
    as [Hempty|(j & _ & (container & Hc & Hin) & _)];
    [by rewrite lookup_empty in Hempty|].
  apply create_args_schema_Ok in Hderived
    as [[_ Hv']|(_ & d & declared_properties & Hv' & Hd & Hbuilt)];
    rewrite Hv' in Hc; [done|].
  simpl in Hc, Hbuilt. rewrite Hd in Hc. simplify_eq/=.
  rewrite (make_properties_frame _ _ _ _ _ Hbuilt Hself), lookup_empty in Hin.
  by simpl in Hin.
Qed.

End collect_more.

(** ** get_wrapped *)

Section wraps_more.
Context {St : Type}.
Implicit Types (wraps : gmap loc (pyobj St)) (f g root : pyobj St).
Implicit Types (path : list (pyobj St)).

(** X6. [get_wrapped] returns [root] exactly when the back-references
    from the given callable form a chain that ends at [root], and exactly
    when the loop of the source, given some number of iterations, ends
    with [root]. *)
Theorem get_wrapped_iff_chain wraps f root :
  (get_wrapped wraps f = Some root ↔ ∃ path, chain wraps f path root) ∧
  (get_wrapped wraps f = Some root ↔
   ∃ fuel, get_wrapped_fuel fuel wraps f = Some root).
Proof.
  assert ((∃ path, chain wraps f path root) →
          get_wrapped wraps f = Some root) as Hchain.
  { intros [path Hc].
    eapply get_wrapped_fuel_chain; [done | by eapply chain_length]. }
  split; split.
  - intros (path & Hc & _)%get_wrapped_fuel_Some. by exists path.
  - done.
  - intros Hroot. by exists (size wraps).
  - intros [fuel (path & Hc & _)%get_wrapped_fuel_Some].
    apply Hchain. by exists path.
Qed.

(** X7. What [get_wrapped] returns has no back-reference, and resolving
    it again returns it. *)
Theorem get_wrapped_idempotent wraps f root :
  get_wrapped wraps f = Some root →
  wraps !! obj_id root = None ∧ get_wrapped wraps root = Some root.
Proof.
  intros (path & Hc & _)%get_wrapped_fuel_Some.
  apply chain_end in Hc. split; [done|].
  unfold get_wrapped. destruct (size wraps); simpl; by rewrite Hc.
Qed.

(** X8. A callable with a back-reference resolves as the callable it
    refers to does: to the same root, or not at all. *)
Theorem get_wrapped_step wraps f g :
  wraps !! obj_id f = Some g →
  get_wrapped wraps f = get_wrapped wraps g.
Proof.
  intros Hf.
  destruct (get_wrapped wraps g) as [root|] eqn:Hroot'.
  - apply get_wrapped_fuel_Some in Hroot' as (path & Hc & _).
    eapply (get_wrapped_fuel_chain _ _ (f :: path));
      [by econstructor | eapply chain_length; by econstructor].
  - destruct (get_wrapped wraps f) as [root|] eqn:Hroot; [|done].
    apply get_wrapped_fuel_Some in Hroot as (path & Hc & _).
    inversion Hc as [|? g' path' ? Hg' Hc']; simplify_eq.
    assert (get_wrapped wraps g = Some root); [|congruence].
    eapply get_wrapped_fuel_chain; [done | by eapply chain_length].
Qed.

(** X9. When the decorator under [with_wraps] returns the very function
    it was given, [with_wraps] makes the function its own back-reference:
    the loop of [get_wrapped] on it never ends, and so a later
    decoration by [annotate] does not return. *)
Theorem with_wraps_same_function_loops
    (decorator0 : pyobj St → decoration St) f rest w w1 :
  callable f = true →
  decorator0 f w = Some (Ok f, w1) →
  ∃ w',
    with_wraps decorator0 (f :: rest) w = Some (Ok f, w') ∧
    attr_wraps w' !! obj_id f = Some f ∧
    (∀ fuel, get_wrapped_fuel fuel (attr_wraps w') f = None) ∧
    ∀ (schema0 : Schema) (args_schema0 result_schema0 : value)
      (is_method0 : bool),
      decorator schema0 args_schema0 result_schema0 is_method0 f w' = None.
Proof.
  intros Hcallable Hdec. eexists. unfold with_wraps.
  rewrite Hcallable, Hdec. simpl. split; [done|].
  assert (<[obj_id f := f]> (attr_wraps w1) !! obj_id f = Some f) as Hself
    by apply lookup_insert_eq.
  split; [done|].
  assert (∀ fuel,
            get_wrapped_fuel fuel (<[obj_id f := f]> (attr_wraps w1)) f =
              None) as Hloop.
  { induction fuel as [|fuel IH]; simpl; by rewrite Hself. }
  split; [done|]. intros schema0 args_schema0 result_schema0 is_method0.
  unfold decorator, get_wrapped. simpl. by rewrite Hloop.
Qed.

End wraps_more.

(** ** The decorator of annotate *)

Section decorated_more.
Context {St : Type}.
Implicit Types (f root wrapped : pyobj St) (rest : list (pyobj St)).
Implicit Types (path : list (pyobj St)).
Implicit Types (w : world St) (a : Annotation St).
Implicit Types (call_args : list value) (call_kwargs : gmap string value).
Implicit Types (dec : list (pyobj St) → decoration St).

(** X10. When the arguments pass but the result violates the result
    schema, the call of the decorated callable raises the error of the
    validator after the wrapped callable has run: the effects of the
    wrapped callable stay. *)
Theorem annotate_result_invalid (schema0 : Schema) args required_args
    result_names (is_method0 : bool) dec f rest w wrapped w' :
  annotate schema0 args required_args result_names is_method0 = Ok dec →
  dec (f :: rest) w = Some (Ok wrapped, w') →
  ∃ a,
    attr_doctor_annotation w' !! obj_id f = Some a ∧
    ∀ call_args call_kwargs (s s' : St) r e,
      args_valid schema0 a call_args call_kwargs →
      invoke f call_args call_kwargs s = (Ok r, s') →
      is_none (result_schema a) = false →
      validator schema0 r (result_schema a) = Raise e →
      invoke wrapped call_args call_kwargs s = (Raise e, s').
Proof.
  intros (args_schema0 & result_schema0 & _ & _ & ->)%annotate_Ok
    (root & a & _ & _ & _ & Hinvoke & Hattr & _)%decorated_Ok.
  exists a. split; [done|].
  intros call_args call_kwargs s s' r e Hargs Hcall Hnone Hres.
  rewrite Hinvoke. unfold wrapper.
  assert ((if negb (is_none (args_schema a))
           then collect_properties a call_args call_kwargs
                ≫= λ properties,
                     validator schema0 (VDict properties) (args_schema a)
           else Ok ()) = Ok ()) as ->.
  { destruct Hargs as [->|(properties & -> & Hv)]; [done|].
    simpl. by destruct (negb _). }
  by rewrite Hcall, Hnone, Hres.
Qed.

(** X11. When the arguments pass and the wrapped callable raises, the
    call of the decorated callable raises the same error, with the effects
    the wrapped callable had; no result is validated. *)
Theorem annotate_propagates_error (schema0 : Schema) args required_args
    result_names (is_method0 : bool) dec f rest w wrapped w' :
  annotate schema0 args required_args result_names is_method0 = Ok dec →
  dec (f :: rest) w = Some (Ok wrapped, w') →
  ∃ a,
    attr_doctor_annotation w' !! obj_id f = Some a ∧
    ∀ call_args call_kwargs (s s' : St) e,
      args_valid schema0 a call_args call_kwargs →
      invoke f call_args call_kwargs s = (Raise e, s') →
      invoke wrapped call_args call_kwargs s = (Raise e, s').
Proof.
  intros (args_schema0 & result_schema0 & _ & _ & ->)%annotate_Ok
    (root & a & _ & _ & _ & Hinvoke & Hattr & _)%decorated_Ok.
  exists a. split; [done|].
  intros call_args call_kwargs s s' e Hargs Hcall.
  rewrite Hinvoke. unfold wrapper.
  assert ((if negb (is_none (args_schema a))
           then collect_properties a call_args call_kwargs
                ≫= λ properties,
                     validator schema0 (VDict properties) (args_schema a)
           else Ok ()) = Ok ()) as ->.
  { destruct Hargs as [->|(properties & -> & Hv)]; [done|].
    simpl. by destruct (negb _). }
  by rewrite Hcall.
Qed.

(** X12. With [args=None] and [result=None] nothing is validated: the
    decorated callable behaves as the callable it wraps, on every call. *)
Theorem annotate_disabled_transparent (schema0 : Schema) required_args
    (is_method0 : bool) dec f rest w wrapped w' :
  annotate schema0 NamesNone required_args NamesNone is_method0 = Ok dec →
  dec (f :: rest) w = Some (Ok wrapped, w') →
  ∀ call_args call_kwargs (s : St),
    invoke wrapped call_args call_kwargs s = invoke f call_args call_kwargs s.
Proof.
  intros (args_schema0 & result_schema0 & Hargs & Hres & ->)%annotate_Ok
    (root & a & _ & _ & Hcreate & Hinvoke & _)%decorated_Ok
    call_args call_kwargs s.
  simpl in Hargs, Hres. simplify_eq.
  apply create_Ok in Hcreate as (fn & _ & _ & _ & _ & _ & _ & _ & Hr & Ha).
  simpl in Ha. rewrite Hinvoke. unfold wrapper. rewrite Ha, Hr. simpl.
  by destruct (invoke f call_args call_kwargs s) as [[r|e] s'].
Qed.

(** X13. What the decorator leaves on the objects: the annotation is an
    attribute of the callable that was decorated and, as a copy of its
    attributes, of the wrapper; the wrapper refers to the decorated
    callable by [_decorated] and by [_wraps]; and the annotation describes
    the root of the chain of the decorated callable, from which the
    parameter names are reflected. *)
Theorem annotate_attributes (schema0 : Schema) args required_args
    result_names (is_method0 : bool) dec f rest w wrapped w' :
  annotate schema0 args required_args result_names is_method0 = Ok dec →
  dec (f :: rest) w = Some (Ok wrapped, w') →
  ∃ root fn a,
    get_wrapped (attr_wraps w) f = Some root ∧
    reflected_function root = Some fn ∧
    annotated_func a = root ∧
    func a = fn ∧
    arg_names a = spec_args (fn_argspec fn) ∧
    default_values a = spec_defaults (fn_argspec fn) ∧
    attr_doctor_annotation w' !! obj_id f = Some a ∧
    attr_doctor_annotation w' !! obj_id wrapped = Some a ∧
    attr_decorated w' !! obj_id wrapped = Some f ∧
    attr_wraps w' !! obj_id wrapped = Some f.
Proof.
  intros (args_schema0 & result_schema0 & _ & _ & ->)%annotate_Ok Hdec.
  pose proof Hdec as
    (root & a & _ & Hroot & Hcreate & _ & Hattr & Hwraps & Hdecorated)
      %decorated_Ok.
  apply create_Ok in Hcreate
    as (fn & Hfn & Hannotated & Hfunc & _ & Hnames & Hdefaults & _).
  exists root, fn, a. split_and!; try done.
  rewrite decorated_spec, Hroot in Hdec.
  destruct (negb (callable f)); [done|].
  destruct (create root schema0 _ _ _) as [a'|]; [|done].
  simplify_eq/=.
  rewrite copy_attr_lookup_src, lookup_insert_eq in Hattr. simplify_eq.
  unfold copy_attr. rewrite lookup_insert_eq. apply lookup_insert_eq.
Qed.

(** X14. The callable that the decorator returns resolves to the same
    root as the callable it decorates, when the wrapper is a new object:
    [get_wrapped] reaches the original function through the wrapper, so a
    decorator stacked on top reflects the same function. *)
Theorem annotate_preserves_root (schema0 : Schema) args required_args
    result_names (is_method0 : bool) dec f rest w wrapped w' path root :
  annotate schema0 args required_args result_names is_method0 = Ok dec →
  chain (attr_wraps w) f path root →
  next_id w ∉ obj_id <$> path →
  next_id w ≠ obj_id root →
  dec (f :: rest) w = Some (Ok wrapped, w') →
  obj_id wrapped = next_id w ∧
  chain (attr_wraps w') wrapped (wrapped :: path) root ∧
  get_wrapped (attr_wraps w') wrapped = Some root.
Proof.
  intros (args_schema0 & result_schema0 & _ & _ & ->)%annotate_Ok
    Hc Hpath Hfresh Hdec.
  rewrite decorated_spec in Hdec.
  destruct (negb (callable f)); [done|].
  destruct (get_wrapped (attr_wraps w) f); [|done].
  destruct (create _ schema0 _ _ _) as [a|]; [|done].
  simplify_eq/=. split; [done|].
  assert (chain (<[next_id w := f]>
                   (copy_attr (obj_id f) (next_id w) (attr_wraps w)))
            (Func {| fn_id := next_id w;
                     fn_argspec := {| spec_args := [];
                                      spec_varargs := Some "args";
                                      spec_keywords := Some "kwargs";
                                      spec_defaults := None |};
                     fn_body := wrapper schema0 a f |})
            (Func {| fn_id := next_id w;
                     fn_argspec := {| spec_args := [];
                                      spec_varargs := Some "args";
                                      spec_keywords := Some "kwargs";
                                      spec_defaults := None |};
                     fn_body := wrapper schema0 a f |} :: path) root)
    as Hc'.
  { econstructor; [apply lookup_insert_eq|].
    apply chain_insert_fresh; [|done|done].
    unfold copy_attr. destruct (attr_wraps w !! obj_id f); [|done].
    by apply chain_insert_fresh. }
  split; [done|].
  eapply get_wrapped_fuel_chain; [done | by eapply chain_length].
Qed.

(** X15. A decoration that raises changes nothing: no annotation is
    attached and no wrapper is made. *)
Theorem annotate_failure_leaves_world (schema0 : Schema) args required_args
    result_names (is_method0 : bool) dec (fs : list (pyobj St)) w e w' :
  annotate schema0 args required_args result_names is_method0 = Ok dec →
  dec fs w = Some (Raise e, w') →
  w' = w.
Proof.
  intros (args_schema0 & result_schema0 & _ & _ & ->)%annotate_Ok.
  destruct fs as [|f rest]; [by intros [= _ ->]|].
  rewrite decorated_spec.
  destruct (negb (callable f)); [by intros [= _ ->]|].
  destruct (get_wrapped (attr_wraps w) f); [|done].
  destruct (create _ schema0 _ _ _); [done|]. by intros [= _ ->].
Qed.

(** X16. Without an explicit args spec, a parameter name of the
    reflected function that does not resolve makes the decorator raise
    the resolution error when it is applied, before any call; the world
    is left as it was. *)
Theorem annotate_derived_unresolved (schema0 : Schema) required_args
    result_names (is_method0 : bool) dec f rest w root fn e :
  annotate schema0 NamesUnset required_args result_names is_method0 =
    Ok dec →
  callable f = true →
  get_wrapped (attr_wraps w) f = Some root →
  reflected_function root = Some fn →
  first_unresolved schema0
    (if treated_as_method root is_method0
     then drop 1 (spec_args (fn_argspec fn))
     else spec_args (fn_argspec fn)) e →
  dec (f :: rest) w = Some (Raise e, w).
Proof.
  intros (args_schema0 & result_schema0 & Hargs & _ & ->)%annotate_Ok
    Hcallable Hroot Hfn Hbad.
  simpl in Hargs. simplify_eq.
  rewrite decorated_spec, Hcallable, Hroot. simpl.
  assert (create root schema0 VUnset result_schema0 is_method0 = Raise e)
    as ->; [|done].
  unfold create. fold (treated_as_method root is_method0).
  assert (callable root = true) as -> by (by destruct root).
  rewrite Hfn. simpl.
  destruct (fn_argspec fn) as [names va kw defaults]; simpl in *.
  unfold create_args_schema.
  destruct (if treated_as_method root is_method0 then drop 1 names else names)
    as [|name names'] eqn:Hnames.
  { destruct Hbad as ([|? ?] & ? & ? & ? & _); done. }
  unfold make_schema_dict.
  by rewrite (make_properties_first_unresolved _ _ ∅ _ Hbad).
Qed.

(** X17. [required_args] is read only when [args] is a list: with any
    other args spec, and so also when the args schema is derived from the
    parameters, [annotate] returns the same decorator whatever
    [required_args] is. *)
Theorem annotate_required_args_unused (schema0 : Schema) args required1
    required2 result_names (is_method0 : bool) :
  (∀ names, args ≠ NamesList names) →
  annotate (St:=St) schema0 args required1 result_names is_method0 =
    annotate schema0 args required2 result_names is_method0.
Proof.
  intros Hlist. unfold annotate, with_wraps_arguments, annotate_body.
  destruct args as [| |name|d|names|v]; try done.
  by destruct (Hlist names).
Qed.

End decorated_more.

(** ** with_wraps *)

Section with_wraps_more.
Context {St : Type}.
Implicit Types (f root wrapped : pyobj St) (rest : list (pyobj St)).
Implicit Types (path : list (pyobj St)) (w : world St).

(** X18. A decorator made by a [with_wraps(arguments=True)] factory
    hands the callable it is given to the decorator that the factory
    generated, and what it returns has that callable as its [_wraps];
    the callable it is given must be callable. *)
Theorem with_wraps_arguments_records {A}
    (factory : A → result (pyobj St → decoration St)) (args : A)
    dec f rest w wrapped w' :
  with_wraps_arguments factory args = Ok dec →
  dec (f :: rest) w = Some (Ok wrapped, w') →
  callable f = true ∧
  attr_wraps w' !! obj_id wrapped = Some f ∧
  ∃ generated w1,
    factory args = Ok generated ∧
    generated f w = Some (Ok wrapped, w1).
Proof.
  unfold with_wraps_arguments.
  destruct (factory args) as [generated|] eqn:Hfactory; simpl; [|done].
  intros [= <-] (Hcallable & w1 & Hgenerated & Hwraps)%with_wraps_records.
  split; [done|]. split; [by rewrite Hwraps, lookup_insert_eq|].
  by exists generated, w1.
Qed.

(** X19. Decorating [f] through [with_wraps] keeps the root: when the
    decorator returns a wrapper that is not one of the objects on the
    chain of [f], and leaves that chain in place, [get_wrapped] of the
    wrapper is the root of [f]. *)
Theorem with_wraps_preserves_root
    (decorator0 : pyobj St → decoration St) f rest w w1 wrapped w' path
    root :
  decorator0 f w = Some (Ok wrapped, w1) →
  chain (attr_wraps w1) f path root →
  obj_id wrapped ∉ obj_id <$> path →
  obj_id wrapped ≠ obj_id root →
  with_wraps decorator0 (f :: rest) w = Some (Ok wrapped, w') →
  get_wrapped (attr_wraps w') wrapped = Some root.
Proof.
  intros Hdec Hc Hpath Hroot Hwith.
  assert (chain (attr_wraps w') wrapped (wrapped :: path) root) as Hc'
    by (by eapply with_wraps_chain).
  eapply get_wrapped_fuel_chain; [done | by eapply chain_length].
Qed.

End with_wraps_more.

(** * Instances on the sample schema *)

(** ** The tests of the repository, on the model *)

Example test_make_schema_dict_none :
  make_schema_dict Sample.user_schema "args" NamesNone None = Ok VNone.
Proof. reflexivity. Qed.

Example test_make_schema_dict_name :
  make_schema_dict Sample.user_schema "args" (NamesStr "user") None =
    Ok (VDict {[ "$ref" := VStr "#/definitions/user" ]}).
Proof. vm_compute. reflexivity. Qed.

Example test_make_schema_dict_custom :
  make_schema_dict Sample.user_schema "args"
    (NamesDict {[ "type" := VStr "boolean" ]}) None =
    Ok (VDict {[ "type" := VStr "boolean" ]}).
Proof. reflexivity. Qed.

Example test_make_schema_dict_list :
  make_schema_dict Sample.user_schema "args" (NamesList ["id"; "email"])
    None =
    Ok (VDict
          {[ "type" := VStr "object";
             "additionalProperties" := VBool true;
             "properties" := VDict
               {[ "id" := VDict {[ "$ref" := VStr "#/definitions/id" ]};
                  "email" :=
                    VDict {[ "$ref" := VStr "#/definitions/email" ]} ]} ]}).
Proof. vm_compute. reflexivity. Qed.

Example test_make_schema_dict_required :
  make_schema_dict Sample.user_schema "args" (NamesList ["id"; "email"])
    (Some ["id"]) =
    Ok (VDict
          {[ "type" := VStr "object";
             "additionalProperties" := VBool true;
             "properties" := VDict
               {[ "id" := VDict {[ "$ref" := VStr "#/definitions/id" ]};
                  "email" :=
                    VDict {[ "$ref" := VStr "#/definitions/email" ]} ]};
             "required" := VList [VStr "id"] ]}).
Proof. vm_compute. reflexivity. Qed.

Example test_make_schema_dict_invalid :
  make_schema_dict Sample.user_schema "args" (NamesOther (VObject 7)) None =
    Raise TypeError.
Proof. reflexivity. Qed.

Example test_make_schema_dict_bad_name :
  make_schema_dict Sample.user_schema "args" (NamesStr "bad") None =
    Raise (RefResolutionError "#/definitions/bad").
Proof. vm_compute. reflexivity. Qed.

Example test_make_schema_dict_bad_list :
  make_schema_dict Sample.user_schema "args" (NamesList ["bad"]) None =
    Raise (RefResolutionError "#/definitions/bad").
Proof. vm_compute. reflexivity. Qed.

Example test_annotate_func_with_default_args :
  create Sample.func_abcd Sample.test_schema VUnset
    (ref_dict "#/definitions/result") false = Ok Sample.annotation_abcd.
Proof. reflexivity. Qed.

Example test_annotation_collect_properties :
  collect_properties Sample.annotation_abcd [VInt 1; VInt 2] ∅ =
    Ok {[ "a" := VInt 1; "b" := VInt 2 ]} ∧
  collect_properties Sample.annotation_abcd
    [VInt 1; VInt 2; VInt 3; VInt 4] ∅ =
    Ok {[ "a" := VInt 1; "b" := VInt 2; "c" := VInt 3; "d" := VInt 4 ]} ∧
  collect_properties Sample.annotation_abcd [VInt 1; VInt 2]
    {[ "c" := VInt 3; "d" := VInt 4 ]} =
    Ok {[ "a" := VInt 1; "b" := VInt 2; "c" := VInt 3; "d" := VInt 4 ]} ∧
  collect_properties Sample.annotation_abcd [VInt 1; VInt 2]
    {[ "d" := VInt 3 ]} =
    Ok {[ "a" := VInt 1; "b" := VInt 2; "d" := VInt 3 ]}.
Proof. split_and!; vm_compute; reflexivity. Qed.

Example test_annotate_validation :
  let func := wrapper Sample.test_schema Sample.annotation_abcd
                Sample.func_abcd in
  func [VStr "foo"; VBool true] ∅ [] =
    (Ok (VInt 0), [[VStr "foo"; VBool true; VInt 0; VInt 0]]) ∧
  func [VStr "foo"; VBool true] {[ "c" := VInt 1; "d" := VInt 2 ]} [] =
    (Ok (VInt 2), [[VStr "foo"; VBool true; VInt 1; VInt 2]]) ∧
  func [VStr "foo"; VStr "bad"] ∅ [] =
    (Raise (ValidationError "is not of type boolean"), []) ∧
  func [VStr "foo"; VBool true] {[ "d" := VInt 100 ]} [] =
    (Raise (ValidationError "is greater than the maximum"),
     [[VStr "foo"; VBool true; VInt 0; VInt 100]]).
Proof. split_and!; vm_compute; reflexivity. Qed.

Example test_get_wrapped :
  ∃ outer w,
    Sample.stacked = Some (outer, w) ∧
    invoke outer [] ∅ [] =
      (Ok VNone, [[VStr "bar"]; [VStr "foo"]; [VStr "bar"]; [VStr "baz"]]) ∧
    get_wrapped (attr_wraps w) outer = Some Sample.baz.
Proof. eexists _, _. split_and!; reflexivity. Qed.

(** ** Instances of the theorems *)

Lemma create_args_schema_required_witness :
  NoDup ["self"; "a"; "b"; "c"; "d"] ∧
  ∃ d properties,
    create_args_schema Sample.test_schema ["self"; "a"; "b"; "c"; "d"]
      (Some [VInt 3; VInt 4]) true = Ok (VDict d) ∧
    d !! "properties" = Some (VDict properties) ∧
    properties !! "self" = None ∧
    required_list d = [VStr "a"; VStr "b"].
Proof.
  assert (NoDup ["self"; "a"; "b"; "c"; "d"]) as Hnodup
    by (apply (bool_decide_unpack _); vm_compute; exact I).
  split; [done|].
  pose proof (create_args_schema_required Sample.test_schema
                ["self"; "a"; "b"; "c"; "d"] (Some [VInt 3; VInt 4]) true
                Hnodup) as H.
  simpl in H.
  destruct (create_args_schema _ _ _ _) as [v|e] eqn:Hc.
  - destruct H as [[? _]|(_ & _ & d & properties & -> & Hp & _ & Hr & _ & _ &
      Hself)]; [done|].
    exists d, properties. split; [done|]. split; [done|].
    split; [by apply Hself|]. rewrite Hr. reflexivity.
  - vm_compute in Hc. done.
Defined.

Lemma collect_properties_positional_precedence_witness :
  NoDup (arg_names Sample.annotation_abcd) ∧
  arg_names Sample.annotation_abcd !! 0 = Some "a" ∧
  declared (args_schema Sample.annotation_abcd) "a" ∧
  [VStr "foo"] !! 0 = Some (VStr "foo") ∧
  ({[ "a" := VStr "bar" ]} : gmap string value) !! "a" = Some (VStr "bar") ∧
  collect_properties Sample.annotation_abcd [VStr "foo"]
    {[ "a" := VStr "bar" ]} = Ok {[ "a" := VStr "foo" ]} ∧
  ({[ "a" := VStr "foo" ]} : gmap string value) !! "a" = Some (VStr "foo").
Proof.
  assert (NoDup (arg_names Sample.annotation_abcd)) as Hnodup
    by (apply (bool_decide_unpack _); vm_compute; exact I).
  assert (declared (args_schema Sample.annotation_abcd) "a") as Hdeclared
    by (eexists; split; vm_compute; reflexivity).
  assert (collect_properties Sample.annotation_abcd [VStr "foo"]
            {[ "a" := VStr "bar" ]} = Ok {[ "a" := VStr "foo" ]}) as Hprops
    by (vm_compute; reflexivity).
  refine (conj Hnodup (conj eq_refl (conj Hdeclared (conj eq_refl
            (conj eq_refl (conj Hprops _)))))).
  exact (collect_properties_positional_precedence Sample.annotation_abcd
           [VStr "foo"] {[ "a" := VStr "bar" ]} 0 "a" (VStr "foo")
           (VStr "bar") {[ "a" := VStr "foo" ]} Hnodup eq_refl Hdeclared
           eq_refl eq_refl Hprops).
Defined.

(** C3, as the claim has it, fails: the keyword value does not take
    precedence over the positional one. *)
Lemma collect_properties_keyword_precedence_fails :
  ¬ (∀ (self : Annotation Sample.log) (call_args : list value)
       (call_kwargs : gmap string value) i name positional keyword
       properties,
       NoDup (arg_names self) →
       arg_names self !! i = Some name →
       declared (args_schema self) name →
       call_args !! i = Some positional →
       call_kwargs !! name = Some keyword →
       collect_properties self call_args call_kwargs = Ok properties →
       properties !! name = Some keyword).
Proof.
  intros H.
  assert (NoDup (arg_names Sample.annotation_abcd)) as Hnodup
    by (apply (bool_decide_unpack _); vm_compute; exact I).
  assert (declared (args_schema Sample.annotation_abcd) "a") as Hdeclared
    by (eexists; split; vm_compute; reflexivity).
  assert (collect_properties Sample.annotation_abcd [VStr "foo"]
            {[ "a" := VStr "bar" ]} = Ok {[ "a" := VStr "foo" ]}) as Hprops
    by (vm_compute; reflexivity).
  specialize (H Sample.annotation_abcd [VStr "foo"] {[ "a" := VStr "bar" ]}
                0 "a" (VStr "foo") (VStr "bar") {[ "a" := VStr "foo" ]}
                Hnodup eq_refl Hdeclared eq_refl eq_refl Hprops).
  vm_compute in H. discriminate.
Qed.

Lemma annotate_round_trip_witness :
  ∃ dec wrapped w',
    annotate Sample.test_schema NamesUnset None (NamesStr "result") false =
      Ok dec ∧
    dec [Sample.func_abcd] Sample.world0 = Some (Ok wrapped, w') ∧
    invoke wrapped [VStr "foo"; VBool true] ∅ [] =
      (Ok (VInt 0), [[VStr "foo"; VBool true; VInt 0; VInt 0]]) ∧
    invoke wrapped [VStr "foo"; VStr "bad"] ∅ [] =
      (Raise (ValidationError "is not of type boolean"), []).
Proof.
  eexists _, _, _.
  split; [reflexivity|]. split; [reflexivity|].
  match goal with |- invoke ?wr _ _ _ = _ ∧ _ => set (wrapped := wr) end.
  destruct (annotate_round_trip Sample.test_schema NamesUnset None
              (NamesStr "result") false _ Sample.func_abcd [] Sample.world0
              wrapped _ eq_refl eq_refl) as (a & Ha & Hcalls).
  change (Some Sample.annotation_abcd = Some a) in Ha.
  injection Ha as <-.
  split.
  - apply (Hcalls _ _ []).
    + right. exists {[ "a" := VStr "foo"; "b" := VBool true ]}.
      split; vm_compute; reflexivity.
    + vm_compute. reflexivity.
    + right. vm_compute. reflexivity.
  - apply (Hcalls _ _ []). split; [reflexivity|].
    exists {[ "a" := VStr "foo"; "b" := VStr "bad" ]}.
    split; vm_compute; reflexivity.
Defined.

Lemma annotate_no_parameters_witness :
  ∃ dec,
    annotate Sample.test_schema NamesUnset None NamesNone false = Ok dec ∧
    callable Sample.func_noargs = true ∧
    get_wrapped (attr_wraps Sample.world0) Sample.func_noargs =
      Some Sample.func_noargs ∧
    spec_args (fn_argspec (Sample.logging_function 2
                             (Sample.spec_of [] None) None)) = [] ∧
    ∃ wrapped w' a,
      dec [Sample.func_noargs] Sample.world0 = Some (Ok wrapped, w') ∧
      attr_doctor_annotation w' !! obj_id Sample.func_noargs = Some a ∧
      args_schema a = VNone ∧
      ∀ call_args call_kwargs (s : Sample.log),
        invoke wrapped call_args call_kwargs s =
          match invoke Sample.func_noargs call_args call_kwargs s with
          | (Raise e, s') => (Raise e, s')
          | (Ok r, s') =>
              match (if negb (is_none (result_schema a))
                     then validator Sample.test_schema r (result_schema a)
                     else Ok ()) with
              | Raise e => (Raise e, s')
              | Ok _ => (Ok r, s')
              end
          end.
Proof.
  eexists. split; [reflexivity|]. split; [reflexivity|].
  split; [reflexivity|]. split; [reflexivity|].
  exact (annotate_no_parameters Sample.test_schema None NamesNone false _
           Sample.func_noargs [] Sample.world0 Sample.func_noargs _
           eq_refl eq_refl eq_refl eq_refl (or_introl eq_refl)).
Defined.

(** The other case of C7: an instance whose [__call__] declares [self]
    only. *)
Example annotate_instance_without_parameters :
  ∃ a, create Sample.instance_noargs Sample.test_schema VUnset VNone false =
         Ok a ∧
       is_method a = true ∧ arg_names a = ["self"] ∧ args_schema a = VNone.
Proof. eexists. split_and!; reflexivity. Qed.

Lemma get_wrapped_chain_witness :
  ∃ outer w path,
    Sample.stacked = Some (outer, w) ∧
    length path = 3 ∧
    chain (attr_wraps w) outer path Sample.baz ∧
    get_wrapped (attr_wraps w) outer = Some Sample.baz ∧
    attr_wraps w !! obj_id Sample.baz = None.
Proof.
  eexists _, _, [_; _; _]. split; [reflexivity|]. split; [reflexivity|].
  match goal with |- chain ?m ?o ?p ?r ∧ _ =>
    assert (chain m o p r) as Hc
  end.
  { repeat (eapply chain_step; [reflexivity|]).
    apply chain_root. reflexivity. }
  split; [exact Hc|].
  destruct (get_wrapped_chain _ _ _ _ Hc) as (Hroot & Hend & _).
  split; [exact Hroot | exact Hend].
Defined.

Lemma annotate_lacking_properties_witness :
  ∃ dec wrapped w',
    annotate Sample.user_schema (NamesStr "user") None NamesNone false =
      Ok dec ∧
    lacks_properties (NamesStr "user") ∧
    dec [Sample.func_abcd] Sample.world0 = Some (Ok wrapped, w') ∧
    get_wrapped (attr_wraps Sample.world0) Sample.func_abcd =
      Some Sample.func_abcd ∧
    spec_args (fn_argspec Sample.fn_abcd) ≠ [] ∧
    ∀ call_args call_kwargs (s : Sample.log),
      invoke wrapped call_args call_kwargs s =
        (Raise (KeyError "properties"), s).
Proof.
  eexists _, _, _.
  split; [reflexivity|]. split; [exact I|]. split; [reflexivity|].
  split; [reflexivity|].
  assert (spec_args (fn_argspec Sample.fn_abcd) ≠ []) as Hnames by done.
  split; [exact Hnames|].
  exact (annotate_lacking_properties Sample.user_schema (NamesStr "user")
           None NamesNone false _ Sample.func_abcd [] Sample.world0 _ _
           Sample.func_abcd Sample.fn_abcd eq_refl I eq_refl eq_refl eq_refl
           Hnames).
Defined.

(** C10, as the claim has it, fails: with an args schema without a
    ["properties"] key, a call of a decorated function that declares no
    parameter extracts the empty mapping, has it validated, and runs the
    wrapped callable. *)
Lemma annotate_lacking_properties_fails :
  ¬ (∀ (schema0 : Schema) args required_args result_names is_method0 dec
       (func : pyobj Sample.log) rest w wrapped w',
       annotate schema0 args required_args result_names is_method0 =
         Ok dec →
       lacks_properties args →
       dec (func :: rest) w = Some (Ok wrapped, w') →
       ∀ call_args call_kwargs s,
         ∃ key s',
           invoke wrapped call_args call_kwargs s = (Raise (KeyError key), s')).
Proof.
  intros H.
  destruct (H Sample.user_schema (NamesStr "user") None NamesNone false _
              Sample.func_noargs [] Sample.world0 _ _ eq_refl I eq_refl
              [] ∅ []) as (key & s' & Hcall).
  vm_compute in Hcall. discriminate.
Qed.

Example annotate_lacking_properties_call :
  ∃ dec wrapped w',
    annotate Sample.user_schema (NamesStr "user") None NamesNone false =
      Ok dec ∧
    dec [Sample.func_noargs] Sample.world0 = Some (Ok wrapped, w') ∧
    invoke wrapped [] ∅ [] = (Ok VNone, [[]]).
Proof. eexists _, _, _. split_and!; reflexivity. Qed.

(** ** Instances of the further properties *)

Lemma make_schema_dict_list_same_names_witness :
  (∀ name, name ∈ ["id"; "email"] ↔ name ∈ ["email"; "id"; "id"]) ∧
  make_schema_dict Sample.user_schema "args" (NamesList ["id"; "email"])
    (Some ["id"]) =
    Ok (VDict
          {[ "type" := VStr "object";
             "additionalProperties" := VBool true;
             "properties" := VDict
               {[ "id" := ref_dict "#/definitions/id";
                  "email" := ref_dict "#/definitions/email" ]};
             "required" := VList [VStr "id"] ]}) ∧
  make_schema_dict Sample.user_schema "args"
    (NamesList ["email"; "id"; "id"]) (Some ["id"]) =
    Ok (VDict
          {[ "type" := VStr "object";
             "additionalProperties" := VBool true;
             "properties" := VDict
               {[ "id" := ref_dict "#/definitions/id";
                  "email" := ref_dict "#/definitions/email" ]};
             "required" := VList [VStr "id"] ]}).
Proof.
  assert (∀ name, name ∈ ["id"; "email"] ↔ name ∈ ["email"; "id"; "id"])
    as Hsame
    by (intros name; rewrite !elem_of_cons, !elem_of_nil; tauto).
  split; [exact Hsame|].
  assert (make_schema_dict Sample.user_schema "args"
            (NamesList ["id"; "email"]) (Some ["id"]) =
          Ok (VDict
                {[ "type" := VStr "object";
                   "additionalProperties" := VBool true;
                   "properties" := VDict
                     {[ "id" := ref_dict "#/definitions/id";
                        "email" := ref_dict "#/definitions/email" ]};
                   "required" := VList [VStr "id"] ]})) as Hbuilt
    by (vm_compute; reflexivity).
  split; [exact Hbuilt|].
  exact (make_schema_dict_list_same_names Sample.user_schema "args"
           ["id"; "email"] ["email"; "id"; "id"] (Some ["id"]) _ Hsame
           Hbuilt).
Defined.

Lemma collect_properties_exact_witness :
  py_getitem (args_schema Sample.annotation_abcd) "properties" =
    Ok (VDict {[ "a" := ref_dict "#/definitions/a";
                 "b" := ref_dict "#/definitions/b";
                 "c" := ref_dict "#/definitions/c";
                 "d" := ref_dict "#/definitions/d" ]}) ∧
  NoDup (arg_names Sample.annotation_abcd) ∧
  ∃ properties,
    collect_properties Sample.annotation_abcd [VInt 1; VInt 2]
      {[ "d" := VInt 3 ]} = Ok properties ∧
    properties !! "a" = Some (VInt 1) ∧
    properties !! "c" = None ∧
    properties !! "d" = Some (VInt 3).
Proof.
  assert (py_getitem (args_schema Sample.annotation_abcd) "properties" =
            Ok (VDict {[ "a" := ref_dict "#/definitions/a";
                         "b" := ref_dict "#/definitions/b";
                         "c" := ref_dict "#/definitions/c";
                         "d" := ref_dict "#/definitions/d" ]})) as Hschema
    by (vm_compute; reflexivity).
  assert (NoDup (arg_names Sample.annotation_abcd)) as Hnodup
    by (apply (bool_decide_unpack _); vm_compute; exact I).
  split; [exact Hschema|]. split; [exact Hnodup|].
  destruct (collect_properties_exact Sample.annotation_abcd [VInt 1; VInt 2]
              {[ "d" := VInt 3 ]} _ Hschema Hnodup)
    as (properties & Hprops & Hparam & _).
  exists properties. split; [exact Hprops|].
  split; [exact (Hparam 0 "a" eq_refl)|].
  split; [exact (Hparam 2 "c" eq_refl) | exact (Hparam 3 "d" eq_refl)].
Defined.

Lemma collect_properties_disjoint_witness :
  py_getitem (args_schema Fixtures.annotation_foo_bar) "properties" =
    Ok (VDict {[ "a" := ref_dict "#/definitions/a";
                 "b" := ref_dict "#/definitions/b" ]}) ∧
  (∀ name, name ∈ arg_names Fixtures.annotation_foo_bar →
     ({[ "a" := ref_dict "#/definitions/a";
         "b" := ref_dict "#/definitions/b" ]} : gmap string value) !! name =
       None) ∧
  collect_properties Fixtures.annotation_foo_bar [VInt 1]
    {[ "bar" := VInt 2 ]} = Ok ∅.
Proof.
  assert (py_getitem (args_schema Fixtures.annotation_foo_bar) "properties" =
            Ok (VDict {[ "a" := ref_dict "#/definitions/a";
                         "b" := ref_dict "#/definitions/b" ]})) as Hschema
    by (vm_compute; reflexivity).
  assert (∀ name, name ∈ arg_names Fixtures.annotation_foo_bar →
            ({[ "a" := ref_dict "#/definitions/a";
                "b" := ref_dict "#/definitions/b" ]}
             : gmap string value) !! name = None) as Hnone.
  { intros name Hname. simpl in Hname.
    apply elem_of_cons in Hname as [->|Hname]; [reflexivity|].
    apply elem_of_cons in Hname as [->|Hname]; [reflexivity|].
    by apply elem_of_nil in Hname. }
  split; [exact Hschema|]. split; [exact Hnone|].
  exact (collect_properties_disjoint Fixtures.annotation_foo_bar [VInt 1]
           {[ "bar" := VInt 2 ]} _ Hschema Hnone).
Defined.

Lemma collect_properties_derived_total_witness :
  create Sample.func_abcd Sample.test_schema VUnset
    (ref_dict "#/definitions/result") false = Ok Sample.annotation_abcd ∧
  is_none (args_schema Sample.annotation_abcd) = false ∧
  is_Ok (collect_properties Sample.annotation_abcd [] ∅).
Proof.
  split; [reflexivity|]. split; [reflexivity|].
  exact (collect_properties_derived_total Sample.func_abcd Sample.test_schema
           (ref_dict "#/definitions/result") false Sample.annotation_abcd
           [] ∅ eq_refl eq_refl).
Defined.

Lemma collect_properties_skips_self_witness :
  ∃ a,
    create Sample.method_abcd Sample.test_schema VUnset VNone true = Ok a ∧
    is_method a = true ∧
    arg_names a = "self" :: ["a"; "b"; "c"; "d"] ∧
    NoDup (arg_names a) ∧
    collect_properties a [VObject 9; VInt 1; VInt 2] ∅ =
      Ok {[ "a" := VInt 1; "b" := VInt 2 ]} ∧
    ({[ "a" := VInt 1; "b" := VInt 2 ]} : gmap string value) !! "self" =
      None.
Proof.
  eexists. split; [reflexivity|].
  match goal with |- is_method ?x = _ ∧ _ => set (a := x) end.
  assert (NoDup (arg_names a)) as Hnodup
    by (apply (bool_decide_unpack _); vm_compute; exact I).
  assert (collect_properties a [VObject 9; VInt 1; VInt 2] ∅ =
            Ok {[ "a" := VInt 1; "b" := VInt 2 ]}) as Hprops
    by (vm_compute; reflexivity).
  refine (conj eq_refl (conj eq_refl (conj Hnodup (conj Hprops _)))).
  exact (collect_properties_skips_self Sample.method_abcd Sample.test_schema
           VNone true a "self" ["a"; "b"; "c"; "d"]
           [VObject 9; VInt 1; VInt 2] ∅ _ eq_refl eq_refl eq_refl Hnodup
           Hprops).
Defined.

Lemma get_wrapped_idempotent_witness :
  ∃ outer w,
    Sample.stacked = Some (outer, w) ∧
    get_wrapped (attr_wraps w) outer = Some Sample.baz ∧
    attr_wraps w !! obj_id Sample.baz = None ∧
    get_wrapped (attr_wraps w) Sample.baz = Some Sample.baz.
Proof.
  eexists _, _. split; [reflexivity|].
  match goal with |- get_wrapped ?m ?o = _ ∧ _ =>
    assert (get_wrapped m o = Some Sample.baz) as Hroot by reflexivity
  end.
  split; [exact Hroot|].
  exact (get_wrapped_idempotent _ _ _ Hroot).
Defined.

Lemma get_wrapped_step_witness :
  ∃ outer w inner,
    Sample.stacked = Some (outer, w) ∧
    attr_wraps w !! obj_id outer = Some inner ∧
    obj_id inner = 101 ∧
    get_wrapped (attr_wraps w) outer = get_wrapped (attr_wraps w) inner.
Proof.
  eexists _, _, _. split; [reflexivity|].
  match goal with |- ?m !! ?k = Some ?i ∧ _ =>
    assert (m !! k = Some i) as Hinner by reflexivity
  end.
  split; [exact Hinner|]. split; [reflexivity|].
  exact (get_wrapped_step _ _ _ Hinner).
Defined.

Lemma with_wraps_same_function_loops_witness :
  callable Sample.baz = true ∧
  Fixtures.same_function Sample.baz Sample.world0 =
    Some (Ok Sample.baz, Sample.world0) ∧
  ∃ w',
    with_wraps Fixtures.same_function [Sample.baz] Sample.world0 =
      Some (Ok Sample.baz, w') ∧
    attr_wraps w' !! obj_id Sample.baz = Some Sample.baz ∧
    get_wrapped (attr_wraps w') Sample.baz = None.
Proof.
  split; [reflexivity|]. split; [reflexivity|].
  destruct (with_wraps_same_function_loops Fixtures.same_function Sample.baz
              [] Sample.world0 Sample.world0 eq_refl eq_refl)
    as (w' & Hdec & Hself & Hloop & _).
  exists w'. split; [exact Hdec|]. split; [exact Hself|]. apply Hloop.
Defined.

Lemma annotate_result_invalid_witness :
  ∃ dec wrapped w',
    annotate Sample.test_schema NamesUnset None (NamesStr "result") false =
      Ok dec ∧
    dec [Sample.func_abcd] Sample.world0 = Some (Ok wrapped, w') ∧
    invoke wrapped [VStr "foo"; VBool true] {[ "d" := VInt 100 ]} [] =
      (Raise (ValidationError "is greater than the maximum"),
       [[VStr "foo"; VBool true; VInt 0; VInt 100]]).
Proof.
  eexists _, _, _.
  split; [reflexivity|]. split; [reflexivity|].
  match goal with |- invoke ?wr _ _ _ = _ => set (wrapped := wr) end.
  destruct (annotate_result_invalid Sample.test_schema NamesUnset None
              (NamesStr "result") false _ Sample.func_abcd []
              Sample.world0 wrapped _ eq_refl eq_refl) as (a & Ha & Hcall).
  change (Some Sample.annotation_abcd = Some a) in Ha.
  injection Ha as <-.
  apply (Hcall _ _ [] _ (VInt 100)).
  - right.
    exists {[ "a" := VStr "foo"; "b" := VBool true; "d" := VInt 100 ]}.
    split; vm_compute; reflexivity.
  - vm_compute. reflexivity.
  - reflexivity.
  - vm_compute. reflexivity.
Defined.

Lemma annotate_propagates_error_witness :
  ∃ dec wrapped w',
    annotate Sample.test_schema NamesUnset None (NamesStr "result") false =
      Ok dec ∧
    dec [Sample.func_abcd] Sample.world0 = Some (Ok wrapped, w') ∧
    invoke wrapped [VStr "foo"; VBool true] {[ "z" := VInt 1 ]} [] =
      (Raise TypeError, []).
Proof.
  eexists _, _, _.
  split; [reflexivity|]. split; [reflexivity|].
  match goal with |- invoke ?wr _ _ _ = _ => set (wrapped := wr) end.
  destruct (annotate_propagates_error Sample.test_schema NamesUnset None
              (NamesStr "result") false _ Sample.func_abcd []
              Sample.world0 wrapped _ eq_refl eq_refl) as (a & Ha & Hcall).
  change (Some Sample.annotation_abcd = Some a) in Ha.
  injection Ha as <-.
  apply (Hcall _ _ []).
  - right. exists {[ "a" := VStr "foo"; "b" := VBool true ]}.
    split; vm_compute; reflexivity.
  - vm_compute. reflexivity.
Defined.

Lemma annotate_disabled_transparent_witness :
  ∃ dec wrapped w',
    annotate Sample.test_schema NamesNone None NamesNone false = Ok dec ∧
    dec [Sample.func_abcd] Sample.world0 = Some (Ok wrapped, w') ∧
    ∀ call_args call_kwargs (s : Sample.log),
      invoke wrapped call_args call_kwargs s =
        invoke Sample.func_abcd call_args call_kwargs s.
Proof.
  eexists _, _, _.
  split; [reflexivity|]. split; [reflexivity|].
  exact (annotate_disabled_transparent Sample.test_schema None false _
           Sample.func_abcd [] Sample.world0 _ _ eq_refl eq_refl).
Defined.

Lemma annotate_attributes_witness :
  ∃ dec wrapped w',
    annotate Sample.test_schema NamesUnset None (NamesStr "result") false =
      Ok dec ∧
    dec [Sample.func_abcd] Sample.world0 = Some (Ok wrapped, w') ∧
    ∃ root fn a,
      get_wrapped (attr_wraps Sample.world0) Sample.func_abcd = Some root ∧
      reflected_function root = Some fn ∧
      annotated_func a = root ∧
      func a = fn ∧
      arg_names a = spec_args (fn_argspec fn) ∧
      default_values a = spec_defaults (fn_argspec fn) ∧
      attr_doctor_annotation w' !! obj_id Sample.func_abcd = Some a ∧
      attr_doctor_annotation w' !! obj_id wrapped = Some a ∧
      attr_decorated w' !! obj_id wrapped = Some Sample.func_abcd ∧
      attr_wraps w' !! obj_id wrapped = Some Sample.func_abcd.
Proof.
  eexists _, _, _.
  split; [reflexivity|]. split; [reflexivity|].
  exact (annotate_attributes Sample.test_schema NamesUnset None
           (NamesStr "result") false _ Sample.func_abcd [] Sample.world0 _ _
           eq_refl eq_refl).
Defined.

Lemma annotate_preserves_root_witness :
  ∃ dec outer w path wrapped w',
    annotate Sample.test_schema NamesNone None NamesNone false = Ok dec ∧
    Sample.stacked = Some (outer, w) ∧
    chain (attr_wraps w) outer path Sample.baz ∧
    (next_id w ∉ obj_id <$> path) ∧
    next_id w ≠ obj_id Sample.baz ∧
    dec [outer] w = Some (Ok wrapped, w') ∧
    obj_id wrapped = 103 ∧
    get_wrapped (attr_wraps w') wrapped = Some Sample.baz.
Proof.
  eexists _, _, _, [_; _; _], _, _.
  split; [reflexivity|]. split; [reflexivity|].
  match goal with |- chain ?m ?o ?p ?r ∧ _ =>
    assert (chain m o p r) as Hc
  end.
  { repeat (eapply chain_step; [reflexivity|]).
    apply chain_root. reflexivity. }
  split; [exact Hc|].
  match goal with |- ?P ∧ _ => assert P as Hpath end.
  { simpl. rewrite !not_elem_of_cons. split_and!; try done.
    apply not_elem_of_nil. }
  split; [exact Hpath|].
  match goal with |- ?P ∧ _ => assert P as Hfresh by done end.
  split; [exact Hfresh|]. split; [reflexivity|].
  destruct (annotate_preserves_root Sample.test_schema NamesNone None
              NamesNone false _ _ [] _ _ _ _ _ eq_refl Hc Hpath Hfresh
              eq_refl) as (Hid & _ & Hroot).
  split; [exact Hid | exact Hroot].
Defined.

Lemma annotate_failure_leaves_world_witness :
  ∃ dec,
    annotate Sample.test_schema NamesUnset None NamesNone false = Ok dec ∧
    dec [Plain 9] Sample.world0 = Some (Raise TypeError, Sample.world0) ∧
    Sample.world0 = Sample.world0.
Proof.
  eexists. split; [reflexivity|].
  split; [reflexivity|].
  exact (annotate_failure_leaves_world Sample.test_schema NamesUnset None
           NamesNone false _ [Plain 9] Sample.world0 TypeError Sample.world0
           eq_refl eq_refl).
Defined.

Lemma annotate_derived_unresolved_witness :
  ∃ dec,
    annotate Sample.test_schema NamesUnset None NamesNone false = Ok dec ∧
    callable (Func Fixtures.fn_unknown) = true ∧
    get_wrapped (attr_wraps Sample.world0) (Func Fixtures.fn_unknown) =
      Some (Func Fixtures.fn_unknown) ∧
    first_unresolved Sample.test_schema ["a"; "zzz"]
      (RefResolutionError "#/definitions/zzz") ∧
    dec [Func Fixtures.fn_unknown] Sample.world0 =
      Some (Raise (RefResolutionError "#/definitions/zzz"), Sample.world0).
Proof.
  eexists. split; [reflexivity|]. split; [reflexivity|].
  split; [reflexivity|].
  assert (first_unresolved Sample.test_schema ["a"; "zzz"]
            (RefResolutionError "#/definitions/zzz")) as Hbad.
  { exists ["a"], "zzz", []. split; [reflexivity|]. split.
    - repeat constructor. eexists. vm_compute. reflexivity.
    - vm_compute. reflexivity. }
  split; [exact Hbad|].
  exact (annotate_derived_unresolved Sample.test_schema None NamesNone false
           _ (Func Fixtures.fn_unknown) [] Sample.world0
           (Func Fixtures.fn_unknown) Fixtures.fn_unknown _
           eq_refl eq_refl eq_refl eq_refl Hbad).
Defined.

Lemma annotate_required_args_unused_witness :
  (∀ names, NamesUnset ≠ NamesList names) ∧
  annotate (St:=Sample.log) Sample.test_schema NamesUnset (Some ["c"])
    NamesNone false =
    annotate Sample.test_schema NamesUnset None NamesNone false.
Proof.
  assert (∀ names, NamesUnset ≠ NamesList names) as Hlist by done.
  split; [exact Hlist|].
  exact (annotate_required_args_unused Sample.test_schema NamesUnset
           (Some ["c"]) None NamesNone false Hlist).
Defined.

Lemma with_wraps_arguments_records_witness :
  ∃ dec wrapped w',
    with_wraps_arguments
      (λ tag : value, Ok (Sample.tagging_decorator tag)) (VStr "bar") =
      Ok dec ∧
    dec [Sample.baz] Sample.world0 = Some (Ok wrapped, w') ∧
    callable Sample.baz = true ∧
    attr_wraps w' !! obj_id wrapped = Some Sample.baz.
Proof.
  eexists _, _, _. split; [reflexivity|]. split; [reflexivity|].
  destruct (with_wraps_arguments_records
              (λ tag : value, Ok (Sample.tagging_decorator tag)) (VStr "bar")
              _ Sample.baz [] Sample.world0 _ _ eq_refl eq_refl)
    as (Hcallable & Hwraps & _).
  split; [exact Hcallable | exact Hwraps].
Defined.

Lemma with_wraps_preserves_root_witness :
  ∃ wrapped w1 w',
    Sample.tagging_decorator (VStr "foo") Sample.baz Sample.world0 =
      Some (Ok wrapped, w1) ∧
    chain (attr_wraps w1) Sample.baz [] Sample.baz ∧
    (obj_id wrapped ∉ obj_id <$> ([] : list (pyobj Sample.log))) ∧
    obj_id wrapped ≠ obj_id Sample.baz ∧
    with_wraps (Sample.tagging_decorator (VStr "foo")) [Sample.baz]
      Sample.world0 = Some (Ok wrapped, w') ∧
    get_wrapped (attr_wraps w') wrapped = Some Sample.baz.
Proof.
  eexists _, _, _. split; [reflexivity|].
  match goal with |- chain ?m ?o ?p ?r ∧ _ =>
    assert (chain m o p r) as Hc by (apply chain_root; reflexivity)
  end.
  split; [exact Hc|].
  match goal with |- ?P ∧ _ => assert P as Hpath by apply not_elem_of_nil end.
  split; [exact Hpath|].
  match goal with |- ?P ∧ _ => assert P as Hfresh by done end.
  split; [exact Hfresh|]. split; [reflexivity|].
  exact (with_wraps_preserves_root (Sample.tagging_decorator (VStr "foo"))
           Sample.baz [] Sample.world0 _ _ _ [] Sample.baz eq_refl Hc Hpath
           Hfresh eq_refl).
Defined.
